(** * Shallow embedding of the alx-polly guard layer

    Sources embedded:
    - [src/app/lib/csrf.ts]: generateCsrfToken, validateCsrfToken, csrfProtection;
    - [src/app/lib/actions/poll-actions.ts]: the two sections of the file
      (lines 1-392 and 394-703), each with createPoll, submitVote,
      deletePoll, updatePoll;
    - [src/app/lib/actions/helpers.ts] and [admin-actions.ts]: the three
      versions of checkAdminAccess / adminDeletePoll, getAuthenticatedUser,
      validatePollOwnership and both getAdminPolls;
    - poll-actions.ts: getUserPolls and getPollById;
    - the pages and components calling them: PollsPage and AdminPage
      ([polls/page.tsx]), handleDelete ([PollActions.tsx]) and the
      PollActions copy in csrf.ts, PollDetailPage ([polls/[id]/page.tsx]),
      votesByOption, totalVotes and handleVote ([SecurePollPage.tsx]) and
      EditPollPage ([polls/[id]/edit/page.tsx]).

    JavaScript strings are modelled as [string]; each character stands for
    one UTF-16 code unit (the model covers code units 0..255). *)

From Stdlib Require Import String Ascii List ZArith Bool Lia Permutation.
Import ListNotations.
Open Scope string_scope.

(* ------------------------------------------------------------------ *)
(** ** JavaScript values reaching the server actions *)

(** A [FormDataEntryValue]: a text field or an uploaded file. *)
Inductive FormDataEntryValue :=
| FStr (s : string)
| FFile.

(** [FormData] as the ordered list of submitted (name, value) pairs. *)
Definition FormData := list (string * FormDataEntryValue).

(** [formData.get(name)]: first value with that name, or [null]. *)
Fixpoint fd_get (fd : FormData) (name : string) : option FormDataEntryValue :=
  match fd with
  | [] => None
  | (k, v) :: rest => if String.eqb k name then Some v else fd_get rest name
  end.

(** [formData.getAll(name)]: every value with that name, in order. *)
Fixpoint fd_getAll (fd : FormData) (name : string) : list FormDataEntryValue :=
  match fd with
  | [] => []
  | (k, v) :: rest =>
      if String.eqb k name then v :: fd_getAll rest name else fd_getAll rest name
  end.

(** JS truthiness ([Boolean(v)]) of a form value: only [""] is falsy,
    a [File] object is truthy. *)
Definition truthy (v : FormDataEntryValue) : bool :=
  match v with
  | FStr s => negb (String.eqb s "")
  | FFile => true
  end.

(** Truthiness of a value that may be [null] / [undefined]. *)
Definition truthy_opt (v : option FormDataEntryValue) : bool :=
  match v with
  | Some x => truthy x
  | None => false
  end.

(** [String.prototype.includes] *)
Fixpoint includes (s pat : string) : bool :=
  match s with
  | EmptyString => String.prefix pat s
  | String _ rest => String.prefix pat s || includes rest pat
  end.

(** [s.replace(/</g, '&lt;')] *)
Fixpoint replace_lt (s : string) : string :=
  match s with
  | EmptyString => EmptyString
  | String c rest =>
      if Ascii.eqb c "<"%char then "&lt;" ++ replace_lt rest
      else String c (replace_lt rest)
  end.

(** [s.replace(/>/g, '&gt;')] *)
Fixpoint replace_gt (s : string) : string :=
  match s with
  | EmptyString => EmptyString
  | String c rest =>
      if Ascii.eqb c ">"%char then "&gt;" ++ replace_gt rest
      else String c (replace_gt rest)
  end.

(** The white space removed by [String.prototype.trim], restricted to code
    units 0..255: TAB, LF, VT, FF, CR, SPACE and NO-BREAK SPACE. *)
Definition is_js_space (c : ascii) : bool :=
  match nat_of_ascii c with
  | 9 | 10 | 11 | 12 | 13 | 32 | 160 => true
  | _ => false
  end.

Fixpoint trim_start (s : string) : string :=
  match s with
  | EmptyString => EmptyString
  | String c rest => if is_js_space c then trim_start rest else s
  end.

Fixpoint rev_str (s : string) : string :=
  match s with
  | EmptyString => EmptyString
  | String c rest => rev_str rest ++ String c EmptyString
  end.

Definition trim_end (s : string) : string := rev_str (trim_start (rev_str s)).

(** [String.prototype.trim] *)
Definition trim (s : string) : string := trim_end (trim_start s).

(** The sanitization applied by createPoll and updatePoll:
    [s.replace(/</g, '&lt;').replace(/>/g, '&gt;').trim()]. *)
Definition sanitize (s : string) : string := trim (replace_gt (replace_lt s)).

(* ------------------------------------------------------------------ *)
(** ** Rows of the external store *)

Record User := mkUser {
  uid : string;                (* user.id *)
  isAdmin : bool               (* user.user_metadata?.isAdmin, as a flag *)
}.

(** A row of table [polls]; [created_at] is set by the store and plays no
    part in the guard layer. *)
Record Poll := mkPoll {
  pl_id : string;
  pl_user_id : string;
  pl_question : string;
  pl_options : list string
}.

(** A row of table [votes] as inserted by submitVote
    ([ip_address] is always [null]). *)
Record Vote := mkVote {
  poll_id : string;
  user_id : string;
  option_index : Z
}.

(** The [csrf_token] cookie with its options. *)
Record Cookie := mkCookie {
  c_value : string;
  c_httpOnly : bool;
  c_secure : bool;
  c_sameSite : string;
  c_path : string;
  c_maxAge : Z
}.

(** The store calls that may report an [error]. *)
Inductive DbOp :=
| SelectVotes | SelectPoll | InsertPoll | InsertVote | DeletePolls | UpdatePolls.

(** What the request context and the external services answer; fixed for
    the duration of a request. *)
Record Env := mkEnv {
  session_user : option User;          (* data.user of auth.getUser() *)
  auth_error : option string;          (* error.message of auth.getUser() *)
  db_error : DbOp -> option string;    (* error.message of a store call *)
  random_byte : nat -> Byte.byte;      (* the output of crypto.randomBytes *)
  fresh_poll_id : nat -> string;       (* ids assigned by the store on insert *)
  production : bool                    (* process.env.NODE_ENV === 'production' *)
}.

(** Server-side state: the two tables, the session's CSRF cookie, and the
    positions reached in the random byte stream and in the id supply. *)
Record State := mkState {
  polls : list Poll;
  votes : list Vote;
  csrf_cookie : option Cookie;
  rng_pos : nat;
  next_row : nat
}.

Definition set_polls (s : State) (ps : list Poll) : State :=
  mkState ps (votes s) (csrf_cookie s) (rng_pos s) (next_row s).
Definition set_votes (s : State) (vs : list Vote) : State :=
  mkState (polls s) vs (csrf_cookie s) (rng_pos s) (next_row s).
Definition set_cookie (s : State) (c : Cookie) (pos : nat) : State :=
  mkState (polls s) (votes s) (Some c) pos (next_row s).
Definition set_next_row (s : State) (n : nat) : State :=
  mkState (polls s) (votes s) (csrf_cookie s) (rng_pos s) n.

(* ------------------------------------------------------------------ *)
(** ** Effects: state, exceptions and Next.js redirects *)

(** How a call ends: a returned value, a thrown error, or the
    [NEXT_REDIRECT] signal thrown by [redirect(path)]. *)
Inductive Outcome (A : Type) :=
| Ret (a : A)
| Throw (msg : string)
| Redirect (path : string).
Arguments Ret {A} a.
Arguments Throw {A} msg.
Arguments Redirect {A} path.

Definition M (A : Type) := Env -> State -> Outcome A * State.

Definition ret {A} (a : A) : M A := fun _ s => (Ret a, s).
Definition throw {A} (msg : string) : M A := fun _ s => (Throw msg, s).
Definition redirect {A} (path : string) : M A := fun _ s => (Redirect path, s).

Definition bind {A B} (m : M A) (k : A -> M B) : M B :=
  fun e s =>
    match m e s with
    | (Ret a, s') => k a e s'
    | (Throw x, s') => (Throw x, s')
    | (Redirect p, s') => (Redirect p, s')
    end.

Notation "x <- m ;; k" := (bind m (fun x => k))
  (at level 61, m at next level, right associativity).
Notation "' p <- m ;; k" := (bind m (fun x => match x with p => k end))
  (at level 61, p pattern, m at next level, right associativity).

(** [try { m } catch (e) { h(e) }]: JavaScript keeps the effects done before
    the throw.  [redirect] throws as well, so it is caught too. *)
Definition try_catch {A} (m : M A) (h : string -> M A) : M A :=
  fun e s =>
    match m e s with
    | (Ret a, s') => (Ret a, s')
    | (Throw x, s') => h x e s'
    | (Redirect p, s') => h "NEXT_REDIRECT" e s'
    end.

(** The [{ error: string | null }] result of the server actions. *)
Definition Res := option string.

(** A block that either returns early from the action ([Some r]) or falls
    through to the next statement ([None]). *)
Definition Step := option Res.

Definition stop (r : Res) : M Step := ret (Some r).
Definition continue : M Step := ret None.

(** Sequencing of a block with the rest of the action body. *)
Definition then_ (b : M Step) (k : M Res) : M Res :=
  r <- b ;; match r with Some r => ret r | None => k end.

(* ------------------------------------------------------------------ *)
(** ** src/app/lib/csrf.ts *)

Definition hex_digit (n : nat) : ascii :=
  if Nat.ltb n 10 then ascii_of_nat (48 + n) else ascii_of_nat (87 + n).

(** [Buffer.prototype.toString('hex')] *)
Fixpoint to_hex (bs : list Byte.byte) : string :=
  match bs with
  | [] => EmptyString
  | b :: rest =>
      let n := Byte.to_nat b in
      String (hex_digit (Nat.div n 16)) (String (hex_digit (Nat.modulo n 16)) (to_hex rest))
  end.

(** [crypto.randomBytes(n)]: the next [n] bytes of the random stream. *)
Definition randomBytes (n : nat) : M (list Byte.byte) :=
  fun e s =>
    (Ret (map (random_byte e) (seq (rng_pos s) n)),
     mkState (polls s) (votes s) (csrf_cookie s) (rng_pos s + n) (next_row s)).

(** [cookieStore.get('csrf_token')?.value] *)
Definition get_csrf_cookie : M (option string) :=
  fun _ s => (Ret (option_map c_value (csrf_cookie s)), s).

(** [cookieStore.set('csrf_token', token, {...})] *)
Definition set_csrf_cookie (token : string) : M unit :=
  fun e s =>
    (Ret tt,
     set_cookie s
       {| c_value := token; c_httpOnly := true; c_secure := production e;
          c_sameSite := "strict"; c_path := "/"; c_maxAge := 60 * 60 |}
       (rng_pos s)).

(** csrf.ts lines 11-25 *)
Definition generateCsrfToken : M string :=
  bytes <- randomBytes 32 ;;
  let token := to_hex bytes in
  _ <- set_csrf_cookie token ;;
  ret token.

(** The error of [cookieStore.set] outside a Server Action or Route
    Handler. *)
Definition cookie_write_error : string :=
  "Cookies can only be modified in a Server Action or Route Handler.".

(** [cookieStore.set('csrf_token', ...)] while a Server Component renders:
    the Next.js App Router allows cookie writes only in a Server Action or a
    Route Handler, and throws elsewhere. *)
Definition set_csrf_cookie_in_render (token : string) : M unit :=
  throw cookie_write_error.

(** generateCsrfToken (csrf.ts lines 11-25) called while a page renders:
    the bytes are drawn, then the cookie write throws. *)
Definition generateCsrfToken_in_render : M string :=
  bytes <- randomBytes 32 ;;
  let token := to_hex bytes in
  _ <- set_csrf_cookie_in_render token ;;
  ret token.

(** JS [!==] between the submitted value and the stored string: a [File]
    never equals a string. *)
Definition js_neq_str (v : FormDataEntryValue) (s : string) : bool :=
  match v with
  | FStr t => negb (String.eqb t s)
  | FFile => true
  end.

(** csrf.ts lines 31-43.  The parameter is typed [string]; the form-based
    callers pass [formData.get(...) as string], so a [File] can reach it. *)
Definition validateCsrfToken (token : FormDataEntryValue) : M bool :=
  storedToken <- get_csrf_cookie ;;
  match storedToken with
  | Some stored =>
      if String.eqb stored "" || negb (truthy token) || js_neq_str token stored
      then ret false
      else (_ <- generateCsrfToken ;; ret true)
  | None => ret false
  end.

(** csrf.ts lines 49-63 *)
Definition csrfProtection (formData : FormData) : M bool :=
  let token := fd_get formData "csrf_token" in
  match token with
  | Some t =>
      if negb (truthy t) then throw "CSRF token missing"
      else (isValid <- validateCsrfToken t ;;
            if negb isValid then throw "Invalid or expired CSRF token" else ret true)
  | None => throw "CSRF token missing"
  end.

(** The CSRF block of createPoll and updatePoll (poll-actions.ts 16-31 and
    282-294, same text): token read from the form. *)
Definition csrf_block_form (formData : FormData) : M Step :=
  try_catch
    (let csrfToken := fd_get formData "csrf_token" in
     match csrfToken with
     | Some t =>
         if negb (truthy t) then stop (Some "Missing security token")
         else (isValid <- validateCsrfToken t ;;
               if negb isValid
               then stop (Some "Invalid security token. Please refresh the page and try again.")
               else continue)
     | None => stop (Some "Missing security token")
     end)
    (fun _ => stop (Some "Security validation failed. Please try again.")).

(** The CSRF block of deletePoll and adminDeletePoll (token passed as an
    optional string argument); [invalid_msg] is the message on mismatch. *)
Definition csrf_block_arg (invalid_msg : string) (csrfToken : option string) : M Step :=
  try_catch
    (match csrfToken with
     | Some t =>
         if String.eqb t "" then stop (Some "Missing security token")
         else (isValid <- validateCsrfToken (FStr t) ;;
               if negb isValid then stop (Some invalid_msg) else continue)
     | None => stop (Some "Missing security token")
     end)
    (fun _ => stop (Some "Security validation failed. Please try again.")).

(* ------------------------------------------------------------------ *)
(** ** The external services *)

(** [supabase.auth.getUser()]: [(data.user, error?.message)]. *)
Definition getUser : M (option User * option string) :=
  fun e s => (Ret (session_user e, auth_error e), s).

(** [from("votes").select("id").eq("poll_id", p).eq("user_id", u)] *)
Definition select_votes (p u : string) : M (option (list Vote) * option string) :=
  fun e s =>
    match db_error e SelectVotes with
    | Some m => (Ret (None, Some m), s)
    | None =>
        (Ret (Some (filter (fun v => String.eqb (poll_id v) p && String.eqb (user_id v) u)
                           (votes s)), None), s)
    end.

(** [from("polls").select(...).eq("id", i).single()]: an error unless
    exactly one row matches. *)
Definition select_poll_single (i : string) : M (option Poll * option string) :=
  fun e s =>
    match db_error e SelectPoll with
    | Some m => (Ret (None, Some m), s)
    | None =>
        match filter (fun p => String.eqb (pl_id p) i) (polls s) with
        | [p] => (Ret (Some p, None), s)
        | _ => (Ret (None, Some "JSON object requested, multiple (or no) rows returned"), s)
        end
    end.

(** [from("polls").insert([{ user_id, question, options }])] *)
Definition insert_poll (u q : string) (opts : list string) : M (option string) :=
  fun e s =>
    match db_error e InsertPoll with
    | Some m => (Ret (Some m), s)
    | None =>
        (Ret None,
         set_next_row (set_polls s (app (polls s) [mkPoll (fresh_poll_id e (next_row s)) u q opts]))
                      (S (next_row s)))
    end.

(** [from("votes").insert([{ poll_id, user_id, option_index, ip_address: null }])] *)
Definition insert_vote (p u : string) (i : Z) : M (option string) :=
  fun e s =>
    match db_error e InsertVote with
    | Some m => (Ret (Some m), s)
    | None => (Ret None, set_votes s (app (votes s) [mkVote p u i]))
    end.

(** [from("polls").delete().eq("id", i)] *)
Definition delete_polls (i : string) : M (option string) :=
  fun e s =>
    match db_error e DeletePolls with
    | Some m => (Ret (Some m), s)
    | None => (Ret None, set_polls s (filter (fun p => negb (String.eqb (pl_id p) i)) (polls s)))
    end.

(** [from("polls").update({ question, options }).eq("id", i).eq("user_id", u)] *)
Definition update_polls (i u q : string) (opts : list string) : M (option string) :=
  fun e s =>
    match db_error e UpdatePolls with
    | Some m => (Ret (Some m), s)
    | None =>
        (Ret None,
         set_polls s (map (fun p => if String.eqb (pl_id p) i && String.eqb (pl_user_id p) u
                                    then mkPoll (pl_id p) (pl_user_id p) q opts else p)
                          (polls s)))
    end.

(** [from("polls").select("*")] filtered by [keep], then
    [.order("created_at", { ascending: false })]; [created_at] is not part
    of the row model, so the order the store returns is the argument
    [order_desc]. *)
Definition select_polls_ordered (keep : Poll -> bool) (order_desc : list Poll -> list Poll)
    : M (option (list Poll) * option string) :=
  fun e s =>
    match db_error e SelectPoll with
    | Some m => (Ret (None, Some m), s)
    | None => (Ret (Some (order_desc (filter keep (polls s))), None), s)
    end.

(** [from("votes").select("option_index").eq("poll_id", p)] *)
Definition select_vote_indices (p : string) : M (option (list Z) * option string) :=
  fun e s =>
    match db_error e SelectVotes with
    | Some m => (Ret (None, Some m), s)
    | None =>
        (Ret (Some (map option_index (filter (fun v => String.eqb (poll_id v) p) (votes s))), None), s)
    end.

(** [revalidatePath] from [next/cache]: drops cached pages, which the model
    does not hold. *)
Definition revalidatePath (path : string) : M unit := ret tt.

(** [revalidatePath] as imported by the second section of poll-actions.ts,
    from [next/navigation], which exports no such function: the binding is
    [undefined] and calling it throws. *)
Definition revalidatePath_navigation (path : string) : M unit :=
  throw "TypeError: revalidatePath is not a function".

(* ------------------------------------------------------------------ *)
(** ** Input checks shared by createPoll and updatePoll *)

Definition msg_missing := "Please provide a question and at least two options.".
Definition msg_question_long := "Question is too long. Maximum 500 characters allowed.".
Definition msg_option_format := "Invalid option format.".
Definition msg_option_long := "Option text is too long. Maximum 200 characters allowed.".
Definition msg_option_chars := "Invalid characters detected in options.".
Definition msg_question_chars := "Invalid characters detected in question.".

(** Sequencing of two blocks. *)
Definition seq_step (b : M Step) (k : M Step) : M Step :=
  r <- b ;; match r with Some r => stop r | None => k end.

(** [question.length > 500] where [question] is [formData.get(...) as string]:
    a [File] has no [length] ([undefined > 500] is false). *)
Definition question_too_long (question : option FormDataEntryValue) : M bool :=
  match question with
  | Some (FStr q) => ret (Nat.ltb 500 (String.length q))
  | Some FFile => ret false
  | None => throw "TypeError: Cannot read properties of null (reading 'length')"
  end.

(** A string method ([includes], [replace]) called on a form value: on a
    [File] or on [null] it throws. *)
Definition as_js_string (question : option FormDataEntryValue) : M string :=
  match question with
  | Some (FStr q) => ret q
  | Some FFile => throw "TypeError: the method is not a function on a File"
  | None => throw "TypeError: Cannot read properties of null"
  end.

(** [for (const option of options) { ... }] *)
Fixpoint options_loop (options : list FormDataEntryValue) : M Step :=
  match options with
  | [] => continue
  | option :: rest =>
      match option with
      | FFile => stop (Some msg_option_format)              (* typeof option !== 'string' *)
      | FStr o =>
          if Nat.ltb 200 (String.length o) then stop (Some msg_option_long)
          else if includes o "<script" || includes o "javascript:"
          then stop (Some msg_option_chars)
          else options_loop rest
      end
  end.

(** poll-actions.ts lines 36-65 (and 299-328, 425-453, 616-645, same text);
    [options] is already [getAll("options").filter(Boolean)]. *)
Definition poll_input_checks (question : option FormDataEntryValue)
    (options : list FormDataEntryValue) : M Step :=
  if negb (truthy_opt question) || Nat.ltb (List.length options) 2
  then stop (Some msg_missing)
  else
    tooLong <- question_too_long question ;;
    if tooLong then stop (Some msg_question_long)
    else
      seq_step (options_loop options)
        (q <- as_js_string question ;;
         if includes q "<script" || includes q "javascript:"
         then stop (Some msg_question_chars)
         else continue).

(** [opts.map(opt => opt.replace(/</g, '&lt;').replace(/>/g, '&gt;').trim())] *)
Fixpoint sanitize_options (options : list FormDataEntryValue) : M (list string) :=
  match options with
  | [] => ret []
  | o :: rest =>
      s <- as_js_string (Some o) ;;
      ss <- sanitize_options rest ;;
      ret (sanitize s :: ss)
  end.

(* ------------------------------------------------------------------ *)
(** ** poll-actions.ts, first section (lines 1-392) *)

Module PollActions.

(** lines 12-103 *)
Definition createPoll (formData : FormData) : M Res :=
  then_ (csrf_block_form formData) (
  let question := fd_get formData "question" in
  let options := filter truthy (fd_getAll formData "options") in
  then_ (poll_input_checks question options) (
  '(user, userError) <- getUser ;;
  match userError with
  | Some m => ret (Some m)
  | None =>
    match user with
    | None => ret (Some "You must be logged in to create a poll.")
    | Some user =>
      q <- as_js_string question ;;
      let sanitizedQuestion := sanitize q in
      sanitizedOptions <- sanitize_options options ;;
      error <- insert_poll (uid user) sanitizedQuestion sanitizedOptions ;;
      match error with
      | Some m => ret (Some m)
      | None => _ <- revalidatePath "/polls" ;; ret None
      end
    end
  end)).

(** lines 149-218; [optionIndex] is a JS number, modelled on the integers. *)
Definition submitVote (pollId : string) (optionIndex : Z) (csrfToken : option string) : M Res :=
  '(user, _) <- getUser ;;
  then_ (csrf_block_arg "Invalid security token. Please refresh and try again." csrfToken) (
  match user with
  | None => ret (Some "You must be logged in to vote.")
  | Some user =>
    '(existingVotes, checkError) <- select_votes pollId (uid user) ;;
    match checkError with
    | Some m => ret (Some m)
    | None =>
      if match existingVotes with Some vs => Nat.ltb 0 (List.length vs) | None => false end
      then ret (Some "You have already voted on this poll.")
      else
        '(poll, pollError) <- select_poll_single pollId ;;
        match pollError with
        | Some m => ret (Some m)
        | None =>
          match poll with
          | None => ret (Some "Poll not found")
          | Some poll =>
            if (optionIndex <? 0)%Z || (optionIndex >=? Z.of_nat (List.length (pl_options poll)))%Z
            then ret (Some "Invalid option selected")
            else
              error <- insert_vote pollId (uid user) optionIndex ;;
              match error with
              | Some m => ret (Some m)
              | None =>
                _ <- try_catch (revalidatePath ("/polls/" ++ pollId)) (fun _ => ret tt) ;;
                ret None
              end
          end
        end
    end
  end).

(** lines 226-270 *)
Definition deletePoll (id : string) (csrfToken : option string) : M Res :=
  then_ (csrf_block_arg "Invalid security token. Please refresh the page and try again." csrfToken) (
  '(user, userError) <- getUser ;;
  match userError with
  | Some m => ret (Some m)
  | None =>
    match user with
    | None => ret (Some "You must be logged in to delete a poll.")
    | Some user =>
      '(poll, fetchError) <- select_poll_single id ;;
      match fetchError with
      | Some m => ret (Some m)
      | None =>
        match poll with
        | None => ret (Some "Poll not found")
        | Some poll =>
          if negb (String.eqb (pl_user_id poll) (uid user))
          then ret (Some "You can only delete your own polls")
          else
            error <- delete_polls id ;;
            match error with
            | Some m => ret (Some m)
            | None => _ <- revalidatePath "/polls" ;; ret None
            end
        end
      end
    end
  end).

(** lines 278-392 *)
Definition updatePoll (pollId : string) (formData : FormData) : M Res :=
  then_ (csrf_block_form formData) (
  let question := fd_get formData "question" in
  let options := filter truthy (fd_getAll formData "options") in
  then_ (poll_input_checks question options) (
  '(user, userError) <- getUser ;;
  match userError with
  | Some m => ret (Some m)
  | None =>
    match user with
    | None => ret (Some "You must be logged in to update a poll.")
    | Some user =>
      '(existingPoll, fetchError) <- select_poll_single pollId ;;
      match fetchError with
      | Some m => ret (Some m)
      | None =>
        match existingPoll with
        | None => ret (Some "Poll not found")
        | Some existingPoll =>
          if negb (String.eqb (pl_user_id existingPoll) (uid user))
          then ret (Some "You can only update your own polls")
          else
            q <- as_js_string question ;;
            let sanitizedQuestion := sanitize q in
            sanitizedOptions <- sanitize_options options ;;
            error <- update_polls pollId (uid user) sanitizedQuestion sanitizedOptions ;;
            match error with
            | Some m => ret (Some m)
            | None =>
              _ <- try_catch (_ <- revalidatePath "/polls" ;;
                              revalidatePath ("/polls/" ++ pollId)) (fun _ => ret tt) ;;
              ret None
            end
        end
      end
    end
  end)).

(** lines 109-124 (and 494-509, same text) *)
Definition getUserPolls (order_desc : list Poll -> list Poll) : M (list Poll * option string) :=
  '(user, _) <- getUser ;;
  match user with
  | None => ret ([], Some "Not authenticated")
  | Some user =>
    '(data, error) <- select_polls_ordered (fun p => String.eqb (pl_user_id p) (uid user)) order_desc ;;
    match error with
    | Some m => ret ([], Some m)
    | None => ret (match data with Some d => d | None => [] end, None)
    end
  end.

(** lines 130-140 (and 512-522, same text) *)
Definition getPollById (id : string) : M (option Poll * option string) :=
  '(data, error) <- select_poll_single id ;;
  match error with
  | Some m => ret (None, Some m)
  | None => ret (data, None)
  end.

End PollActions.

(* ------------------------------------------------------------------ *)
(** ** poll-actions.ts, second section (lines 394-703) *)

Module PollActions2.

(** lines 400-491: the text of the first createPoll; its [revalidatePath]
    comes from [next/navigation]. *)
Definition createPoll (formData : FormData) : M Res :=
  then_ (csrf_block_form formData) (
  let question := fd_get formData "question" in
  let options := filter truthy (fd_getAll formData "options") in
  then_ (poll_input_checks question options) (
  '(user, userError) <- getUser ;;
  match userError with
  | Some m => ret (Some m)
  | None =>
    match user with
    | None => ret (Some "You must be logged in to create a poll.")
    | Some user =>
      q <- as_js_string question ;;
      let sanitizedQuestion := sanitize q in
      sanitizedOptions <- sanitize_options options ;;
      error <- insert_poll (uid user) sanitizedQuestion sanitizedOptions ;;
      match error with
      | Some m => ret (Some m)
      | None => _ <- revalidatePath_navigation "/polls" ;; ret None
      end
    end
  end)).

(** lines 525-575: no CSRF block, no revalidation. *)
Definition submitVote (pollId : string) (optionIndex : Z) : M Res :=
  '(user, _) <- getUser ;;
  match user with
  | None => ret (Some "You must be logged in to vote.")
  | Some user =>
    '(existingVotes, checkError) <- select_votes pollId (uid user) ;;
    match checkError with
    | Some m => ret (Some m)
    | None =>
      if match existingVotes with Some vs => Nat.ltb 0 (List.length vs) | None => false end
      then ret (Some "You have already voted on this poll.")
      else
        '(poll, pollError) <- select_poll_single pollId ;;
        match pollError with
        | Some m => ret (Some m)
        | None =>
          match poll with
          | None => ret (Some "Poll not found")
          | Some poll =>
            if (optionIndex <? 0)%Z || (optionIndex >=? Z.of_nat (List.length (pl_options poll)))%Z
            then ret (Some "Invalid option selected")
            else
              error <- insert_vote pollId (uid user) optionIndex ;;
              match error with
              | Some m => ret (Some m)
              | None => ret None
              end
          end
        end
    end
  end.

(** lines 578-607: no CSRF block; [revalidatePath] comes from
    [next/navigation]. *)
Definition deletePoll (id : string) : M Res :=
  '(user, userError) <- getUser ;;
  match userError with
  | Some m => ret (Some m)
  | None =>
    match user with
    | None => ret (Some "You must be logged in to delete a poll.")
    | Some user =>
      '(poll, fetchError) <- select_poll_single id ;;
      match fetchError with
      | Some m => ret (Some m)
      | None =>
        match poll with
        | None => ret (Some "Poll not found")
        | Some poll =>
          if negb (String.eqb (pl_user_id poll) (uid user))
          then ret (Some "You can only delete your own polls")
          else
            error <- delete_polls id ;;
            match error with
            | Some m => ret (Some m)
            | None => _ <- revalidatePath_navigation "/polls" ;; ret None
            end
        end
      end
    end
  end.

(** lines 610-703: no CSRF block, no revalidation. *)
Definition updatePoll (pollId : string) (formData : FormData) : M Res :=
  let question := fd_get formData "question" in
  let options := filter truthy (fd_getAll formData "options") in
  then_ (poll_input_checks question options) (
  '(user, userError) <- getUser ;;
  match userError with
  | Some m => ret (Some m)
  | None =>
    match user with
    | None => ret (Some "You must be logged in to update a poll.")
    | Some user =>
      '(existingPoll, fetchError) <- select_poll_single pollId ;;
      match fetchError with
      | Some m => ret (Some m)
      | None =>
        match existingPoll with
        | None => ret (Some "Poll not found")
        | Some existingPoll =>
          if negb (String.eqb (pl_user_id existingPoll) (uid user))
          then ret (Some "You can only update your own polls")
          else
            q <- as_js_string question ;;
            let sanitizedQuestion := sanitize q in
            sanitizedOptions <- sanitize_options options ;;
            error <- update_polls pollId (uid user) sanitizedQuestion sanitizedOptions ;;
            match error with
            | Some m => ret (Some m)
            | None => ret None
            end
        end
      end
    end
  end).

End PollActions2.

(* ------------------------------------------------------------------ *)
(** ** helpers.ts (getAuthenticatedUser and its admin actions) *)

(** A form value used as a filter value by the query builder: it is
    converted to a string. *)
Definition filter_string (v : option FormDataEntryValue) : string :=
  match v with
  | Some (FStr s) => s
  | Some FFile => "[object File]"
  | None => "null"
  end.

Module Helpers.

(** helpers.ts lines 5-16 *)
Definition getAuthenticatedUser : M User :=
  '(user, _) <- getUser ;;
  match user with
  | None => throw "User not authenticated."
  | Some user => ret user
  end.

(** helpers.ts lines 48-59 *)
Definition checkAdminAccess : M User :=
  user <- getAuthenticatedUser ;;
  if negb (isAdmin user) then redirect "/polls" else ret user.

(** helpers.ts lines 83-105 *)
Definition adminDeletePoll (formData : FormData) : M Res :=
  _ <- checkAdminAccess ;;
  then_ (try_catch (_ <- csrfProtection formData ;; continue)
                   (fun msg => stop (Some msg))) (
  let pollId := fd_get formData "poll_id" in
  if negb (truthy_opt pollId) then ret (Some "Missing poll_id")
  else
    error <- delete_polls (filter_string pollId) ;;
    match error with
    | Some m => ret (Some m)
    | None => ret None
    end).

(** helpers.ts lines 18-34 ([select("user_id")] reads the same row). *)
Definition validatePollOwnership (pollId : string) : M unit :=
  user <- getAuthenticatedUser ;;
  '(poll, error) <- select_poll_single pollId ;;
  match error, poll with
  | None, Some poll =>
      if negb (String.eqb (pl_user_id poll) (uid user))
      then throw "User is not the owner of the poll."
      else ret tt
  | _, _ => throw "Poll not found."
  end.

(** helpers.ts lines 65-76 *)
Definition getAdminPolls (order_desc : list Poll -> list Poll) : M (list Poll * option string) :=
  _ <- checkAdminAccess ;;
  '(data, error) <- select_polls_ordered (fun _ => true) order_desc ;;
  match error with
  | Some m => ret ([], Some m)
  | None => ret (match data with Some d => d | None => [] end, None)
  end.

End Helpers.

(* ------------------------------------------------------------------ *)
(** ** admin-actions.ts *)

(** [checkAdminAccess] of both sections of admin-actions.ts (lines 11-30
    and 88-107, same text). *)
Definition checkAdminAccess_redirect : M bool :=
  '(user, error) <- getUser ;;
  match error, user with
  | None, Some user => if negb (isAdmin user) then redirect "/polls" else ret true
  | _, _ => redirect "/login"
  end.

Module AdminActions.

(** admin-actions.ts lines 55-80 *)
Definition adminDeletePoll (pollId : string) (csrfToken : option string) : M Res :=
  _ <- checkAdminAccess_redirect ;;
  then_ (csrf_block_arg "Invalid security token. Please refresh the page and try again." csrfToken) (
  error <- delete_polls pollId ;;
  match error with
  | Some m => ret (Some m)
  | None => ret None
  end).

(** admin-actions.ts lines 36-47 (and 110-121, same text) *)
Definition getAdminPolls (order_desc : list Poll -> list Poll) : M (list Poll * option string) :=
  _ <- checkAdminAccess_redirect ;;
  '(data, error) <- select_polls_ordered (fun _ => true) order_desc ;;
  match error with
  | Some m => ret ([], Some m)
  | None => ret (match data with Some d => d | None => [] end, None)
  end.

End AdminActions.

Module AdminActions2.

(** admin-actions.ts lines 124-135: no CSRF block. *)
Definition adminDeletePoll (pollId : string) : M Res :=
  _ <- checkAdminAccess_redirect ;;
  error <- delete_polls pollId ;;
  match error with
  | Some m => ret (Some m)
  | None => ret None
  end.

End AdminActions2.

(* ------------------------------------------------------------------ *)
(** ** The pages and components that call the actions *)

(** [notFound()] of [next/navigation] throws. *)
Definition notFound {A} : M A := throw "NEXT_NOT_FOUND".

(** polls/page.tsx lines 9-38, PollsPage (a Server Component): the
    caller's polls, then a fresh token meant for every [PollActions] card. *)
Definition PollsPage (order_desc : list Poll -> list Poll)
    : M (list Poll * option string * string) :=
  '(polls, error) <- PollActions.getUserPolls order_desc ;;
  csrfToken <- generateCsrfToken_in_render ;;
  ret (polls, error, csrfToken).

(** polls/page.tsx lines 42-52, CreatePollPage (a Server Component): the
    token meant for [PollCreateForm]. *)
Definition CreatePollPage : M string :=
  csrfToken <- generateCsrfToken_in_render ;;
  ret csrfToken.

(** PollActions.tsx lines 24-29, [handleDelete] after [confirm] said yes:
    [deletePoll(poll.id, csrfToken)] with the token the card received from PollsPage
    ([window.location.reload()] follows). *)
Definition handleDelete (pollId csrfToken : string) : M Res :=
  PollActions.deletePoll pollId (Some csrfToken).

(** The copy of [PollActions] at the end of csrf.ts (lines 182-213):
    [<form action={deletePoll}>] calls [deletePoll(formData)]:
    the [FormData] object takes the place of [id], [csrfToken] is
    [undefined], and the hidden [poll_id] and [csrf_token] inputs are never
    read.  The id is the object's string form. *)
Definition poll_card_delete_form (formData : FormData) : M Res :=
  PollActions.deletePoll "[object FormData]" None.

(** polls/page.tsx, AdminPage: the delete form's action
    [async () => { await adminDeletePoll(poll.id); }], against the
    adminDeletePoll of admin-actions.ts that takes a token. *)
Definition admin_page_delete_action (pollId : string) : M unit :=
  _ <- AdminActions.adminDeletePoll pollId None ;;
  ret tt.

(** A JS object with number keys ([Record<number, number>]), as its list of
    entries in insertion order. *)
Definition JsObj := list (Z * nat).

Fixpoint js_get (o : JsObj) (k : Z) : option nat :=
  match o with
  | [] => None
  | (k', v) :: rest => if Z.eqb k k' then Some v else js_get rest k
  end.

(** [o[k] = v]: an existing key keeps its place, a new one goes last. *)
Fixpoint js_set (o : JsObj) (k : Z) (v : nat) : JsObj :=
  match o with
  | [] => [(k, v)]
  | (k', v') :: rest => if Z.eqb k k' then (k', v) :: rest else (k', v') :: js_set rest k v
  end.

(** Keys that are array indices come first in [Object.entries]. *)
Definition is_array_index (k : Z) : bool := (0 <=? k)%Z && (k <=? 4294967294)%Z.

Fixpoint insert_by_key (kv : Z * nat) (o : JsObj) : JsObj :=
  match o with
  | [] => [kv]
  | kv' :: rest => if (fst kv <? fst kv')%Z then kv :: o else kv' :: insert_by_key kv rest
  end.

(** [Object.entries(o)] with [Number(key)] applied to each key: array-index
    keys in ascending order, then the other keys in insertion order. *)
Definition object_entries (o : JsObj) : JsObj :=
  app (fold_right insert_by_key [] (filter (fun kv => is_array_index (fst kv)) o))
      (filter (fun kv => negb (is_array_index (fst kv))) o).

(** polls/[id]/page.tsx lines 38-45: [counts[idx] = (counts[idx] || 0) + 1]
    for each row. *)
Definition count_rows (rows : list Z) : JsObj :=
  fold_left (fun counts idx =>
               js_set counts idx (match js_get counts idx with Some c => c | None => 0 end + 1))
            rows [].

(** polls/[id]/page.tsx, PollDetailPage (a Server Component): the poll, its
    [voteStats], whether the caller has voted, and the token meant for
    [SecurePollPage].  The token is generated before the not-found check. *)
Definition PollDetailPage (id : string) : M (Poll * JsObj * bool * string) :=
  '(poll, error) <- PollActions.getPollById id ;;
  csrfToken <- generateCsrfToken_in_render ;;
  match error, poll with
  | None, Some poll =>
    '(user, _) <- getUser ;;
    userVoted <- match user with
                 | Some user =>
                     '(votes, _) <- select_votes id (uid user) ;;
                     ret (match votes with Some vs => Nat.ltb 0 (List.length vs) | None => false end)
                 | None => ret false
                 end ;;
    '(voteRows, _) <- select_vote_indices id ;;
    let counts := match voteRows with Some rows => count_rows rows | None => [] end in
    ret (poll, object_entries counts, userVoted, csrfToken)
  | _, _ => notFound
  end.

(** SecurePollPage.tsx lines 41-53: [votesByOption], zero for every option
    index, then the count of every entry of [poll.votes]. *)
Definition votesByOption (options : list string) (voteStats : JsObj) : JsObj :=
  fold_left (fun o kv => js_set o (fst kv) (snd kv)) voteStats
    (fold_left (fun o i => js_set o (Z.of_nat i) 0) (seq 0 (List.length options)) []).

(** SecurePollPage.tsx line 55: the sum of [Object.values(votesByOption)]. *)
Definition totalVotes (options : list string) (voteStats : JsObj) : nat :=
  fold_left (fun sum kv => sum + snd kv) (object_entries (votesByOption options voteStats)) 0.

(** The React state of SecurePollPage read and written by [handleVote]. *)
Record VoteUi := mkVoteUi {
  selectedOption : option Z;
  hasVoted : bool;
  isSubmitting : bool;
  errorMessage : option string
}.

Definition set_ui (ui : VoteUi) (voted submitting : bool) (err : option string) : VoteUi :=
  mkVoteUi (selectedOption ui) voted submitting err.

(** SecurePollPage.tsx lines 57-86, [handleVote]; [user] is the client-side
    [useAuth()] user.  The [FormData] holding [csrf_token] is built and never
    passed on: [submitVote(poll.id, selectedOption)] gets no token. *)
Definition handleVote (pollId : string) (user : option User) (ui : VoteUi) : M VoteUi :=
  match selectedOption ui with
  | None => ret ui
  | Some selected =>
    match user with
    | None => ret (set_ui ui (hasVoted ui) (isSubmitting ui) (Some "You must be logged in to vote"))
    | Some _ =>
      let ui := set_ui ui (hasVoted ui) true None in
      try_catch
        (result <- PollActions.submitVote pollId selected None ;;
         match result with
         | Some m =>
             if negb (String.eqb m "") then ret (set_ui ui (hasVoted ui) false (Some m))
             else ret (set_ui ui true false (errorMessage ui))
         | None => ret (set_ui ui true false (errorMessage ui))
         end)
        (fun _ => ret (set_ui ui (hasVoted ui) false (Some "Failed to submit vote. Please try again.")))
    end
  end.

(** polls/[id]/edit/page.tsx, EditPollPage (a Server Component): the poll
    and the token meant for [EditPollForm]. *)
Definition EditPollPage (id : string) : M (Poll * string) :=
  '(poll, error) <- PollActions.getPollById id ;;
  '(user, _) <- getUser ;;
  match error, poll with
  | None, Some poll =>
    match user with
    | Some user =>
        if negb (String.eqb (pl_user_id poll) (uid user))
        then redirect ("/polls/" ++ id)
        else (csrfToken <- generateCsrfToken_in_render ;; ret (poll, csrfToken))
    | None => redirect ("/polls/" ++ id)
    end
  | _, _ => notFound
  end.

(* ------------------------------------------------------------------ *)
(** ** Concrete request contexts used by the examples *)

Definition byte_at (n : nat) : Byte.byte :=
  match Byte.of_nat (Nat.modulo n 256) with Some b => b | None => Byte.x00 end.

(** A context with session user [u], no service faults, the random stream
    0,1,2,... and row ids "row0", "row1", ... *)
Definition env_of (u : option User) : Env :=
  mkEnv u None (fun _ => None) byte_at
        (fun n => "row" ++ String (ascii_of_nat (48 + n)) EmptyString) false.

Definition cookie_of (t : string) : Cookie := mkCookie t true false "strict" "/" 3600.

Definition alice := mkUser "u1" false.
Definition mallory := mkUser "u2" false.
Definition root_admin := mkUser "u9" true.

(** One poll "p1" owned by "u1" with three options, no votes, and the
    session token "tok". *)
Definition st0 := mkState [mkPoll "p1" "u1" "Q" ["a"; "b"; "c"]] [] (Some (cookie_of "tok")) 0 0.


(* ------------------------------------------------------------------ *)
(** * Properties *)

(** The fresh token that the next call of generateCsrfToken stores. *)
Definition next_token (e : Env) (s : State) : string :=
  to_hex (map (random_byte e) (seq (rng_pos s) 32)).

Lemma validateCsrfToken_eq : forall t e s,
  validateCsrfToken t e s =
  match csrf_cookie s with
  | Some c =>
      if String.eqb (c_value c) "" || negb (truthy t) || js_neq_str t (c_value c)
      then (Ret false, s)
      else (Ret true,
            set_cookie s (mkCookie (next_token e s) true (production e) "strict" "/" 3600)
                       (rng_pos s + 32))
  | None => (Ret false, s)
  end.
Proof.
  intros t e s. unfold validateCsrfToken, bind, get_csrf_cookie.
  destruct (csrf_cookie s) as [c|]; simpl; [|reflexivity].
  destruct (_ || _ || _); reflexivity.
Qed.

Lemma validateCsrfToken_true_cookie : forall t e s s',
  validateCsrfToken t e s = (Ret true, s') ->
  option_map c_value (csrf_cookie s') = Some (next_token e s).
Proof.
  intros t e s s' H. rewrite validateCsrfToken_eq in H.
  destruct (csrf_cookie s) as [c|]; [|discriminate].
  destruct (_ || _ || _); inversion H; subst; reflexivity.
Qed.

Lemma validateCsrfToken_accepts : forall t e s c,
  csrf_cookie s = Some c -> c_value c = t -> t <> "" ->
  fst (validateCsrfToken (FStr t) e s) = Ret true.
Proof.
  intros t e s c Hc Hv Hne. rewrite validateCsrfToken_eq, Hc. subst t.
  simpl. apply String.eqb_neq in Hne. rewrite Hne, String.eqb_refl. reflexivity.
Qed.

(** ** C4: a token is accepted at most once *)

(** C4: if validateCsrfToken accepts [t], the replacement token it stores
    (fresh, i.e. different from [t]) makes an immediately following
    validateCsrfToken of the same [t] return false. *)
Theorem validate_token_single_use : forall (t : string) (e : Env) (s s' : State),
  validateCsrfToken (FStr t) e s = (Ret true, s') ->
  next_token e s <> t ->
  fst (validateCsrfToken (FStr t) e s') = Ret false.
Proof.
  intros t e s s' H Hfresh.
  pose proof (validateCsrfToken_true_cookie _ _ _ _ H) as Hc.
  rewrite validateCsrfToken_eq.
  destruct (csrf_cookie s') as [c|]; [|reflexivity]. simpl in Hc. inversion Hc as [Hv].
  rewrite Hv. simpl.
  assert (Hneq : String.eqb t (next_token e s) = false)
    by (apply String.eqb_neq; intro; subst; apply Hfresh; reflexivity).
  rewrite Hneq. destruct (String.eqb (next_token e s) ""), (String.eqb t ""); reflexivity.
Qed.

Lemma validate_token_single_use_witness :
  validateCsrfToken (FStr "tok") (env_of None) st0
    = (Ret true, snd (validateCsrfToken (FStr "tok") (env_of None) st0))
  /\ next_token (env_of None) st0 <> "tok"
  /\ fst (validateCsrfToken (FStr "tok") (env_of None)
            (snd (validateCsrfToken (FStr "tok") (env_of None) st0))) = Ret false.
Proof.
  assert (H1 : validateCsrfToken (FStr "tok") (env_of None) st0
               = (Ret true, snd (validateCsrfToken (FStr "tok") (env_of None) st0)))
    by reflexivity.
  assert (H2 : next_token (env_of None) st0 <> "tok") by (vm_compute; discriminate).
  split; [exact H1|]. split; [exact H2|].
  exact (validate_token_single_use "tok" (env_of None) st0 _ H1 H2).
Defined.

(** ** C10: a failed validation changes nothing *)

(** C10: when validateCsrfToken returns false the whole server state, and
    with it the stored token and its cookie options, is unchanged; so a
    subsequent call presenting the stored (non-empty) value succeeds. *)
Theorem validate_failure_keeps_token : forall (t : FormDataEntryValue) (e : Env) (s s' : State),
  validateCsrfToken t e s = (Ret false, s') ->
  s' = s /\
  (forall c, csrf_cookie s' = Some c -> c_value c <> "" ->
             fst (validateCsrfToken (FStr (c_value c)) e s') = Ret true).
Proof.
  intros t e s s' H.
  assert (Hs : s' = s).
  { rewrite validateCsrfToken_eq in H.
    destruct (csrf_cookie s) as [c|].
    - destruct (_ || _ || _); inversion H; reflexivity.
    - inversion H; reflexivity. }
  split; [exact Hs|].
  intros c Hc Hne. exact (validateCsrfToken_accepts _ e s' c Hc eq_refl Hne).
Qed.

Lemma validate_failure_keeps_token_witness :
  validateCsrfToken (FStr "forged") (env_of None) st0 = (Ret false, st0)
  /\ fst (validateCsrfToken (FStr "tok") (env_of None) st0) = Ret true.
Proof.
  assert (H : validateCsrfToken (FStr "forged") (env_of None) st0 = (Ret false, st0))
    by reflexivity.
  split; [exact H|].
  destruct (validate_failure_keeps_token _ _ _ _ H) as [_ Hok].
  exact (Hok (cookie_of "tok") eq_refl ltac:(discriminate)).
Defined.

(** ** Reasoning about the blocks of an action *)

Lemma then_cases : forall (b : M Step) (k : M Res) e s (P : Outcome Res * State -> Prop),
  (forall r s', b e s = (Ret (Some r), s') -> P (Ret r, s')) ->
  (forall s', b e s = (Ret None, s') -> P (k e s')) ->
  (forall x s', b e s = (Throw x, s') -> P (Throw x, s')) ->
  (forall x s', b e s = (Redirect x, s') -> P (Redirect x, s')) ->
  P (then_ b k e s).
Proof.
  intros b k e s P H1 H2 H3 H4. unfold then_, bind.
  destruct (b e s) as [[[r|]|x|x] s'] eqn:E; eauto.
Qed.

Lemma bind_cases : forall {A B} (m : M A) (k : A -> M B) e s (P : Outcome B * State -> Prop),
  (forall a s', m e s = (Ret a, s') -> P (k a e s')) ->
  (forall x s', m e s = (Throw x, s') -> P (Throw x, s')) ->
  (forall x s', m e s = (Redirect x, s') -> P (Redirect x, s')) ->
  P (bind m k e s).
Proof.
  intros A B m k e s P H1 H2 H3. unfold bind.
  destruct (m e s) as [[a|x|x] s'] eqn:E; eauto.
Qed.

(** The outcome of a block that stops with an error message or goes on. *)
Definition stops_with_error_or_goes_on (o : Outcome Step) : Prop :=
  o = Ret None \/ exists m, o = Ret (Some (Some m)).

(** A validation of the token only touches the cookie and the random stream. *)
Lemma validateCsrfToken_tables : forall t e s,
  polls (snd (validateCsrfToken t e s)) = polls s /\
  votes (snd (validateCsrfToken t e s)) = votes s /\
  (exists b, fst (validateCsrfToken t e s) = Ret b).
Proof.
  intros t e s. rewrite validateCsrfToken_eq.
  destruct (csrf_cookie s) as [c|]; [destruct (_ || _ || _)|]; simpl; eauto.
Qed.

Lemma csrf_block_arg_tables : forall msg t e s,
  polls (snd (csrf_block_arg msg t e s)) = polls s /\
  votes (snd (csrf_block_arg msg t e s)) = votes s /\
  stops_with_error_or_goes_on (fst (csrf_block_arg msg t e s)).
Proof.
  intros msg t e s. unfold csrf_block_arg, try_catch, stops_with_error_or_goes_on.
  destruct t as [t|]; [|simpl; eauto].
  destruct (String.eqb t ""); [simpl; eauto|].
  unfold bind.
  destruct (validateCsrfToken_tables (FStr t) e s) as [Hp [Hv [b Hb]]].
  destruct (validateCsrfToken (FStr t) e s) as [o s1]. simpl in *. subst o.
  destruct b; simpl; eauto.
Qed.

Lemma csrf_block_form_tables : forall fd e s,
  polls (snd (csrf_block_form fd e s)) = polls s /\
  votes (snd (csrf_block_form fd e s)) = votes s /\
  stops_with_error_or_goes_on (fst (csrf_block_form fd e s)).
Proof.
  intros fd e s. unfold csrf_block_form, try_catch, stops_with_error_or_goes_on.
  destruct (fd_get fd "csrf_token") as [t|]; [|simpl; eauto].
  destruct (negb (truthy t)); [simpl; eauto|].
  unfold bind.
  destruct (validateCsrfToken_tables t e s) as [Hp [Hv [b Hb]]].
  destruct (validateCsrfToken t e s) as [o s1]. simpl in *. subst o.
  destruct b; simpl; eauto.
Qed.

Lemma csrf_block_arg_valid : forall msg e s c,
  csrf_cookie s = Some c -> c_value c <> "" ->
  exists s1, csrf_block_arg msg (Some (c_value c)) e s = (Ret None, s1) /\
             polls s1 = polls s /\ votes s1 = votes s.
Proof.
  intros msg e s c Hc Hne. unfold csrf_block_arg, try_catch, bind.
  assert (Hne' := Hne). apply String.eqb_neq in Hne'. rewrite Hne'.
  pose proof (validateCsrfToken_accepts _ e s c Hc eq_refl Hne) as Hok.
  destruct (validateCsrfToken_tables (FStr (c_value c)) e s) as [Hp [Hv _]].
  destruct (validateCsrfToken (FStr (c_value c)) e s) as [o s1].
  simpl in *. subst o. simpl. eauto.
Qed.

Lemma csrf_block_form_valid : forall fd e s c,
  csrf_cookie s = Some c -> c_value c <> "" ->
  fd_get fd "csrf_token" = Some (FStr (c_value c)) ->
  exists s1, csrf_block_form fd e s = (Ret None, s1) /\
             polls s1 = polls s /\ votes s1 = votes s.
Proof.
  intros fd e s c Hc Hne Hfd. unfold csrf_block_form, try_catch, bind.
  rewrite Hfd. simpl.
  assert (Hne' := Hne). apply String.eqb_neq in Hne'. rewrite Hne'. simpl.
  pose proof (validateCsrfToken_accepts _ e s c Hc eq_refl Hne) as Hok.
  destruct (validateCsrfToken_tables (FStr (c_value c)) e s) as [Hp [Hv _]].
  destruct (validateCsrfToken (FStr (c_value c)) e s) as [o s1].
  simpl in *. subst o. simpl. eauto.
Qed.

(** The input checks read neither the context nor the state, and leave the
    state as it is. *)
Lemma options_loop_pure : forall opts, exists r,
  (forall e s, options_loop opts e s = (Ret r, s)) /\
  (r = None \/ exists m, r = Some (Some m)).
Proof.
  induction opts as [|v rest IH].
  - exists None. split; [reflexivity | left; reflexivity].
  - destruct v as [o|]; simpl.
    + destruct (Nat.ltb 200 (String.length o)).
      * exists (Some (Some msg_option_long)). split; [reflexivity | right; eauto].
      * destruct (includes o "<script" || includes o "javascript:").
        -- exists (Some (Some msg_option_chars)). split; [reflexivity | right; eauto].
        -- exact IH.
    + exists (Some (Some msg_option_format)). split; [reflexivity | right; eauto].
Qed.

Lemma poll_input_checks_pure : forall q opts, exists o,
  (forall e s, poll_input_checks q opts e s = (o, s)) /\
  (stops_with_error_or_goes_on o \/ exists x, o = Throw x).
Proof.
  intros q opts. unfold stops_with_error_or_goes_on.
  destruct (options_loop_pure opts) as [r [Hr Hform]].
  destruct (negb (truthy_opt q) || Nat.ltb (List.length opts) 2) eqn:E1.
  { exists (Ret (Some (Some msg_missing))).
    split; [intros e s; unfold poll_input_checks; rewrite E1; reflexivity | eauto]. }
  destruct q as [[q|]|].
  - destruct (Nat.ltb 500 (String.length q)) eqn:E2.
    { exists (Ret (Some (Some msg_question_long))).
      split; [intros e s; unfold poll_input_checks, bind; rewrite E1; simpl; rewrite E2;
              reflexivity | eauto]. }
    destruct Hform as [->|[m ->]].
    + exists (Ret (if includes q "<script" || includes q "javascript:"
                   then Some (Some msg_question_chars) else None)).
      split.
      * intros e s. unfold poll_input_checks, seq_step, bind. rewrite E1. simpl.
        rewrite E2, Hr. simpl.
        destruct (includes q "<script" || includes q "javascript:"); reflexivity.
      * destruct (includes q "<script" || includes q "javascript:"); eauto.
    + exists (Ret (Some (Some m))). split; [|eauto].
      intros e s. unfold poll_input_checks, seq_step, bind. rewrite E1. simpl.
      rewrite E2, Hr. reflexivity.
  - destruct Hform as [->|[m ->]].
    + exists (Throw "TypeError: the method is not a function on a File"). split; [|eauto].
      intros e s. unfold poll_input_checks, seq_step, bind. rewrite E1. simpl.
      rewrite Hr. reflexivity.
    + exists (Ret (Some (Some m))). split; [|eauto].
      intros e s. unfold poll_input_checks, seq_step, bind. rewrite E1. simpl.
      rewrite Hr. reflexivity.
  - exists (Throw "TypeError: Cannot read properties of null (reading 'length')").
    split; [|eauto].
    intros e s. unfold poll_input_checks, bind. rewrite E1. reflexivity.
Qed.

(** ** Ownership checks of deletePoll and updatePoll *)

(** The error of deletePoll / updatePoll for a caller [u] who does not own
    the poll, once the CSRF and input blocks are passed: the first failing
    service call, else the ownership message [msg]. *)
Definition nonowner_error (e : Env) (msg : string) : string :=
  match auth_error e with
  | Some m => m
  | None => match db_error e SelectPoll with Some m => m | None => msg end
  end.

(** How an action ends when its input block yields [o] and, past it, the
    action ends with the error [m]. *)
Definition after_checks (o : Outcome Step) (m : string) : Outcome Res :=
  match o with
  | Ret (Some r) => Ret r
  | Ret None => Ret (Some m)
  | Throw x => Throw x
  | Redirect x => Redirect x
  end.

Section NonOwner.

Variables (pid : string) (e : Env) (u : User) (p : Poll).
Hypothesis Hu : session_user e = Some u.
Hypothesis Hne : pl_user_id p <> uid u.

(** The target poll: the only row with id [pid]. *)
Definition target (s : State) : Prop :=
  filter (fun q => String.eqb (pl_id q) pid) (polls s) = [p].

Lemma target_same_polls : forall s s', polls s' = polls s -> target s -> target s'.
Proof. unfold target. intros s s' H. rewrite H. auto. Qed.

Lemma deletePoll2_nonowner : forall s, target s ->
  PollActions2.deletePoll pid e s
  = (Ret (Some (nonowner_error e "You can only delete your own polls")), s).
Proof.
  intros s Hf. assert (Hne' := Hne). apply String.eqb_neq in Hne'.
  unfold PollActions2.deletePoll, nonowner_error, bind, getUser, select_poll_single, ret.
  simpl. rewrite Hu. destruct (auth_error e); [reflexivity|].
  destruct (db_error e SelectPoll); [reflexivity|].
  unfold target in Hf. rewrite Hf. simpl. rewrite Hne'. reflexivity.
Qed.

Lemma deletePoll1_nonowner : forall s tok, target s ->
  exists m s', PollActions.deletePoll pid tok e s = (Ret (Some m), s') /\ polls s' = polls s.
Proof.
  intros s tok Hf. assert (Hne' := Hne). apply String.eqb_neq in Hne'.
  destruct (csrf_block_arg_tables "Invalid security token. Please refresh the page and try again."
              tok e s) as [Hp [_ Hform]].
  unfold PollActions.deletePoll. apply then_cases.
  - intros r s' Hb. rewrite Hb in Hp, Hform. simpl in *.
    destruct Hform as [Hn|[m Hm]]; [discriminate|]. inversion Hm; subst. eauto.
  - intros s' Hb. rewrite Hb in Hp. simpl in Hp.
    pose proof (target_same_polls s s' Hp Hf) as Hf'. unfold target in Hf'.
    unfold bind, getUser, select_poll_single, ret. simpl. rewrite Hu.
    destruct (auth_error e); [eauto|]. destruct (db_error e SelectPoll); [eauto|].
    rewrite Hf'. simpl. rewrite Hne'. simpl. eauto.
  - intros x s' Hb. rewrite Hb in Hform. destruct Hform as [Hn|[m Hm]]; discriminate.
  - intros x s' Hb. rewrite Hb in Hform. destruct Hform as [Hn|[m Hm]]; discriminate.
Qed.

Lemma deletePoll1_nonowner_valid : forall s c, target s ->
  csrf_cookie s = Some c -> c_value c <> "" ->
  fst (PollActions.deletePoll pid (Some (c_value c)) e s)
  = Ret (Some (nonowner_error e "You can only delete your own polls")).
Proof.
  intros s c Hf Hc Hnc. assert (Hne' := Hne). apply String.eqb_neq in Hne'.
  destruct (csrf_block_arg_valid "Invalid security token. Please refresh the page and try again."
              e s c Hc Hnc) as [s1 [Hb [Hp _]]].
  pose proof (target_same_polls s s1 Hp Hf) as Hf'. unfold target in Hf'.
  unfold PollActions.deletePoll, then_. unfold bind at 1. rewrite Hb.
  unfold nonowner_error, bind, getUser, select_poll_single, ret. simpl. rewrite Hu.
  destruct (auth_error e); [reflexivity|]. destruct (db_error e SelectPoll); [reflexivity|].
  rewrite Hf'. simpl. rewrite Hne'. reflexivity.
Qed.

(** The input of updatePoll as the action reads it. *)
Definition update_input_checks (fd : FormData) : M Step :=
  poll_input_checks (fd_get fd "question") (filter truthy (fd_getAll fd "options")).

Lemma updatePoll2_nonowner : forall s fd o, target s ->
  (forall e' s', update_input_checks fd e' s' = (o, s')) ->
  PollActions2.updatePoll pid fd e s
  = (after_checks o (nonowner_error e "You can only update your own polls"), s).
Proof.
  intros s fd o Hf Hic. assert (Hne' := Hne). apply String.eqb_neq in Hne'.
  unfold update_input_checks in Hic.
  unfold PollActions2.updatePoll. cbv zeta. apply then_cases; rewrite Hic.
  - intros r s' H. inversion H; subst. reflexivity.
  - intros s' H. inversion H; subst.
    unfold nonowner_error, bind, getUser, select_poll_single, ret. simpl. rewrite Hu.
    destruct (auth_error e); [reflexivity|]. destruct (db_error e SelectPoll); [reflexivity|].
    unfold target in Hf. rewrite Hf. simpl. rewrite Hne'. reflexivity.
  - intros x s' H. inversion H; subst. reflexivity.
  - intros x s' H. inversion H; subst. reflexivity.
Qed.

Lemma updatePoll1_nonowner : forall s fd o, target s ->
  (forall e' s', update_input_checks fd e' s' = (o, s')) ->
  exists s1, polls s1 = polls s /\
    (PollActions.updatePoll pid fd e s
       = (after_checks o (nonowner_error e "You can only update your own polls"), s1)
     \/ exists m, PollActions.updatePoll pid fd e s = (Ret (Some m), s1)).
Proof.
  intros s fd o Hf Hic. assert (Hne' := Hne). apply String.eqb_neq in Hne'.
  unfold update_input_checks in Hic.
  destruct (csrf_block_form_tables fd e s) as [Hp [_ Hform]].
  unfold PollActions.updatePoll. apply then_cases.
  - intros r s' Hb. rewrite Hb in Hp, Hform. simpl in *.
    destruct Hform as [Hn|[m Hm]]; [discriminate|]. inversion Hm; subst. eauto.
  - intros s' Hb. rewrite Hb in Hp. simpl in Hp. exists s'. split; [exact Hp|]. left.
    pose proof (target_same_polls s s' Hp Hf) as Hf'. unfold target in Hf'.
    cbv zeta. apply then_cases; rewrite Hic.
    + intros r s'' H. inversion H; subst. reflexivity.
    + intros s'' H. inversion H; subst.
      unfold nonowner_error, bind, getUser, select_poll_single, ret. simpl. rewrite Hu.
      destruct (auth_error e); [reflexivity|]. destruct (db_error e SelectPoll); [reflexivity|].
      rewrite Hf'. simpl. rewrite Hne'. reflexivity.
    + intros x s'' H. inversion H; subst. reflexivity.
    + intros x s'' H. inversion H; subst. reflexivity.
  - intros x s' Hb. rewrite Hb in Hform. destruct Hform as [Hn|[m Hm]]; discriminate.
  - intros x s' Hb. rewrite Hb in Hform. destruct Hform as [Hn|[m Hm]]; discriminate.
Qed.

Lemma updatePoll1_nonowner_valid : forall s fd o c, target s ->
  (forall e' s', update_input_checks fd e' s' = (o, s')) ->
  csrf_cookie s = Some c -> c_value c <> "" ->
  fd_get fd "csrf_token" = Some (FStr (c_value c)) ->
  fst (PollActions.updatePoll pid fd e s)
  = after_checks o (nonowner_error e "You can only update your own polls").
Proof.
  intros s fd o c Hf Hic Hc Hnc Htok. assert (Hne' := Hne). apply String.eqb_neq in Hne'.
  unfold update_input_checks in Hic.
  destruct (csrf_block_form_valid fd e s c Hc Hnc Htok) as [s1 [Hb [Hp _]]].
  pose proof (target_same_polls s s1 Hp Hf) as Hf'. unfold target in Hf'.
  unfold PollActions.updatePoll, then_ at 1. unfold bind at 1. rewrite Hb.
  cbv zeta. fold (then_ (poll_input_checks (fd_get fd "question")
                         (filter truthy (fd_getAll fd "options")))).
  apply (then_cases _ _ e s1 (fun R => fst R = _)); rewrite Hic.
  - intros r s'' H. inversion H; subst. reflexivity.
  - intros s'' H. inversion H; subst.
    unfold nonowner_error, bind, getUser, select_poll_single, ret. simpl. rewrite Hu.
    destruct (auth_error e); [reflexivity|]. destruct (db_error e SelectPoll); [reflexivity|].
    rewrite Hf'. simpl. rewrite Hne'. reflexivity.
  - intros x s'' H. inversion H; subst. reflexivity.
  - intros x s'' H. inversion H; subst. reflexivity.
Qed.

End NonOwner.

Lemma after_checks_fails : forall o m,
  stops_with_error_or_goes_on o \/ (exists x, o = Throw x) -> after_checks o m <> Ret None.
Proof.
  intros o m [[->|[m' ->]]|[x ->]]; simpl; discriminate.
Qed.

Lemma update_input_checks_pure : forall fd, exists o,
  (forall e s, update_input_checks fd e s = (o, s)) /\
  (stops_with_error_or_goes_on o \/ exists x, o = Throw x).
Proof. intros fd. apply poll_input_checks_pure. Qed.

(** updatePoll reads the form only through its [csrf_token], [question] and
    [options] fields: a [user_id] field sent by the client plays no part. *)
Lemma updatePoll_reads_only : forall pid fd fd',
  fd_get fd "csrf_token" = fd_get fd' "csrf_token" ->
  fd_get fd "question" = fd_get fd' "question" ->
  fd_getAll fd "options" = fd_getAll fd' "options" ->
  forall e s,
    PollActions.updatePoll pid fd e s = PollActions.updatePoll pid fd' e s /\
    PollActions2.updatePoll pid fd e s = PollActions2.updatePoll pid fd' e s.
Proof.
  intros pid fd fd' H1 H2 H3 e s.
  unfold PollActions.updatePoll, PollActions2.updatePoll, csrf_block_form.
  rewrite H1, H2, H3. split; reflexivity.
Qed.

(** ** C1: ownership of update and delete *)

(** C1 (as stated, refuted): a caller "u2" who does not own poll "p1" and
    presents a wrong token gets the token error from deletePoll, not the
    ownership error. *)
Lemma nonowner_gets_token_error :
  session_user (env_of (Some mallory)) = Some mallory /\
  pl_user_id (mkPoll "p1" "u1" "Q" ["a"; "b"; "c"]) <> uid mallory /\
  fst (PollActions.deletePoll "p1" (Some "bad") (env_of (Some mallory)) st0)
    = Ret (Some "Invalid security token. Please refresh the page and try again.") /\
  fst (PollActions.deletePoll "p1" (Some "bad") (env_of (Some mallory)) st0)
    <> Ret (Some "You can only delete your own polls").
Proof.
  repeat split; try discriminate; vm_compute; try reflexivity; discriminate.
Qed.

(** C1 (amended): for a server-resolved caller [u] who does not own the
    poll [pid] (the only row with that id, re-read by the action), every
    version of deletePoll and updatePoll fails and leaves the poll rows
    unchanged; once the token (where checked), the input checks and the
    service calls pass, the error is the ownership error; and the outcome
    does not depend on any form field other than csrf_token, question and
    options, so a client-supplied user_id is ignored. *)
Theorem ownership_checked_server_side :
  forall (pid : string) (e : Env) (s : State) (u : User) (p : Poll),
  session_user e = Some u ->
  filter (fun q => String.eqb (pl_id q) pid) (polls s) = [p] ->
  pl_user_id p <> uid u ->
  (forall tok, fst (PollActions.deletePoll pid tok e s) <> Ret None /\
               polls (snd (PollActions.deletePoll pid tok e s)) = polls s) /\
  (forall fd, fst (PollActions.updatePoll pid fd e s) <> Ret None /\
              polls (snd (PollActions.updatePoll pid fd e s)) = polls s) /\
  (fst (PollActions2.deletePoll pid e s) <> Ret None /\
   polls (snd (PollActions2.deletePoll pid e s)) = polls s) /\
  (forall fd, fst (PollActions2.updatePoll pid fd e s) <> Ret None /\
              polls (snd (PollActions2.updatePoll pid fd e s)) = polls s) /\
  (auth_error e = None -> db_error e SelectPoll = None ->
     fst (PollActions2.deletePoll pid e s) = Ret (Some "You can only delete your own polls") /\
     (forall fd, fst (update_input_checks fd e s) = Ret None ->
        fst (PollActions2.updatePoll pid fd e s) = Ret (Some "You can only update your own polls")) /\
     (forall c, csrf_cookie s = Some c -> c_value c <> "" ->
        fst (PollActions.deletePoll pid (Some (c_value c)) e s)
          = Ret (Some "You can only delete your own polls") /\
        (forall fd, fd_get fd "csrf_token" = Some (FStr (c_value c)) ->
           fst (update_input_checks fd e s) = Ret None ->
           fst (PollActions.updatePoll pid fd e s) = Ret (Some "You can only update your own polls")))) /\
  (forall fd fd',
     fd_get fd "csrf_token" = fd_get fd' "csrf_token" ->
     fd_get fd "question" = fd_get fd' "question" ->
     fd_getAll fd "options" = fd_getAll fd' "options" ->
     PollActions.updatePoll pid fd e s = PollActions.updatePoll pid fd' e s /\
     PollActions2.updatePoll pid fd e s = PollActions2.updatePoll pid fd' e s).
Proof.
  intros pid e s u p Hu Hf Hne.
  assert (Ht : target pid p s) by exact Hf.
  split; [|split; [|split; [|split; [|split]]]].
  - intros tok. destruct (deletePoll1_nonowner pid e u p Hu Hne s tok Ht) as [m [s' [Heq Hp]]].
    rewrite Heq. simpl. split; [discriminate | exact Hp].
  - intros fd. destruct (update_input_checks_pure fd) as [o [Ho Hform]].
    destruct (updatePoll1_nonowner pid e u p Hu Hne s fd o Ht Ho) as [s1 [Hp [Heq|[m Heq]]]];
      rewrite Heq; simpl; split; try exact Hp.
    + apply after_checks_fails. exact Hform.
    + discriminate.
  - rewrite (deletePoll2_nonowner pid e u p Hu Hne s Ht). simpl. split; [discriminate|reflexivity].
  - intros fd. destruct (update_input_checks_pure fd) as [o [Ho Hform]].
    rewrite (updatePoll2_nonowner pid e u p Hu Hne s fd o Ht Ho). simpl.
    split; [apply after_checks_fails; exact Hform | reflexivity].
  - intros Ha Hd.
    assert (Hmsg : forall m, nonowner_error e m = m)
      by (intros m; unfold nonowner_error; rewrite Ha, Hd; reflexivity).
    split; [|split].
    + rewrite (deletePoll2_nonowner pid e u p Hu Hne s Ht), Hmsg. reflexivity.
    + intros fd Hok. destruct (update_input_checks_pure fd) as [o [Ho _]].
      rewrite Ho in Hok. simpl in Hok. subst o.
      rewrite (updatePoll2_nonowner pid e u p Hu Hne s fd (Ret None) Ht Ho), Hmsg. reflexivity.
    + intros c Hc Hnc. split.
      * rewrite (deletePoll1_nonowner_valid pid e u p Hu Hne s c Ht Hc Hnc), Hmsg. reflexivity.
      * intros fd Htok Hok. destruct (update_input_checks_pure fd) as [o [Ho _]].
        rewrite Ho in Hok. simpl in Hok. subst o.
        rewrite (updatePoll1_nonowner_valid pid e u p Hu Hne s fd (Ret None) c Ht Ho Hc Hnc Htok),
          Hmsg. reflexivity.
  - intros fd fd' H1 H2 H3. exact (updatePoll_reads_only pid fd fd' H1 H2 H3 e s).
Qed.

(** A forged [user_id] field naming the owner, and the session token. *)
Definition forged_form : FormData :=
  [("csrf_token", FStr "tok"); ("user_id", FStr "u1"); ("question", FStr "Q2");
   ("options", FStr "x"); ("options", FStr "y")].

Lemma ownership_checked_server_side_witness :
  fst (PollActions.deletePoll "p1" (Some "tok") (env_of (Some mallory)) st0)
    = Ret (Some "You can only delete your own polls") /\
  fst (PollActions.updatePoll "p1" forged_form (env_of (Some mallory)) st0)
    = Ret (Some "You can only update your own polls").
Proof.
  destruct (ownership_checked_server_side "p1" (env_of (Some mallory)) st0 mallory
              (mkPoll "p1" "u1" "Q" ["a"; "b"; "c"]) eq_refl eq_refl ltac:(discriminate))
    as [_ [_ [_ [_ [H _]]]]].
  destruct (H eq_refl eq_refl) as [_ [_ Hc]].
  destruct (Hc (cookie_of "tok") eq_refl ltac:(discriminate)) as [H1 H2].
  split; [exact H1 | apply H2; reflexivity].
Defined.

(** ** CSRF gate of the delete actions *)

(** The token presented is not the live, non-empty session token. *)
Definition token_rejected (s : State) (tok : option string) : Prop :=
  ~ (exists c, csrf_cookie s = Some c /\ c_value c <> "" /\ tok = Some (c_value c)).

Lemma csrf_block_arg_rejects : forall msg tok e s,
  token_rejected s tok ->
  exists m, csrf_block_arg msg tok e s = (Ret (Some (Some m)), s).
Proof.
  intros msg tok e s Hrej. unfold csrf_block_arg, try_catch, bind.
  destruct tok as [t|]; [|simpl; eauto].
  destruct (String.eqb t "") eqn:Ht; [simpl; eauto|].
  rewrite validateCsrfToken_eq.
  destruct (csrf_cookie s) as [c|] eqn:Hc; [|simpl; eauto].
  destruct (String.eqb (c_value c) "" || negb (truthy (FStr t)) || js_neq_str (FStr t) (c_value c))
    eqn:Hcond; [simpl; eauto|].
  exfalso. apply Hrej. exists c.
  apply orb_false_iff in Hcond as [Hcond H3]. apply orb_false_iff in Hcond as [H1 _].
  simpl in H3. apply negb_false_iff, String.eqb_eq in H3. subst t.
  apply String.eqb_neq in H1. auto.
Qed.

Lemma deletePoll_rejects_token : forall pid tok e s,
  token_rejected s tok ->
  exists m, PollActions.deletePoll pid tok e s = (Ret (Some m), s).
Proof.
  intros pid tok e s Hrej.
  destruct (csrf_block_arg_rejects "Invalid security token. Please refresh the page and try again."
              tok e s Hrej) as [m Hb].
  unfold PollActions.deletePoll, then_, bind at 1. rewrite Hb. exists m. reflexivity.
Qed.

Lemma adminDeletePoll_rejects_token : forall pid tok e s,
  token_rejected s tok ->
  polls (snd (AdminActions.adminDeletePoll pid tok e s)) = polls s /\
  fst (AdminActions.adminDeletePoll pid tok e s) <> Ret None.
Proof.
  intros pid tok e s Hrej.
  destruct (csrf_block_arg_rejects "Invalid security token. Please refresh the page and try again."
              tok e s Hrej) as [m Hb].
  unfold AdminActions.adminDeletePoll, checkAdminAccess_redirect, bind, getUser.
  destruct (auth_error e), (session_user e) as [v|]; simpl;
    try (split; [reflexivity | discriminate]).
  destruct (isAdmin v); simpl; [|split; [reflexivity | discriminate]].
  unfold then_, bind. rewrite Hb. simpl. split; [reflexivity | discriminate].
Qed.

(** ** C2: the versions without a CSRF block *)

(** C2 (code defect): the second-section deletePoll (poll-actions.ts
    578-607) and the second adminDeletePoll (admin-actions.ts 124-135) have
    no token parameter and no CSRF block: with no token at all, the owner's
    and the admin's requests delete poll "p1" (the admin one returning
    [{ error: null }]), while the versions with the CSRF block turn the same
    token-less requests away and delete nothing. *)
Theorem delete_without_token_in_drafts :
  polls (snd (PollActions2.deletePoll "p1" (env_of (Some alice)) st0)) = [] /\
  polls (snd (AdminActions2.adminDeletePoll "p1" (env_of (Some root_admin)) st0)) = [] /\
  fst (AdminActions2.adminDeletePoll "p1" (env_of (Some root_admin)) st0) = Ret None /\
  PollActions.deletePoll "p1" None (env_of (Some alice)) st0
    = (Ret (Some "Missing security token"), st0) /\
  AdminActions.adminDeletePoll "p1" None (env_of (Some root_admin)) st0
    = (Ret (Some "Missing security token"), st0).
Proof. repeat split; vm_compute; reflexivity. Qed.

(** ** submitVote *)

(** Number of vote rows of user [w] on poll [q]. *)
Definition count_votes (q w : string) (vs : list Vote) : nat :=
  List.length (filter (fun v => String.eqb (poll_id v) q && String.eqb (user_id v) w) vs).

(** The two ways a call of submitVote can end: with an error and the vote
    rows untouched, or with [{ error: null }] after inserting the caller's
    single vote, which happens only when every check passed. *)
Lemma submitVote_cases : forall pid i tok e s,
  polls (snd (PollActions.submitVote pid i tok e s)) = polls s /\
  ((votes (snd (PollActions.submitVote pid i tok e s)) = votes s /\
    exists m, fst (PollActions.submitVote pid i tok e s) = Ret (Some m)) \/
   (exists u p, session_user e = Some u /\
      db_error e SelectVotes = None /\ count_votes pid (uid u) (votes s) = 0 /\
      db_error e SelectPoll = None /\
      filter (fun q => String.eqb (pl_id q) pid) (polls s) = [p] /\
      (0 <= i < Z.of_nat (List.length (pl_options p)))%Z /\
      db_error e InsertVote = None /\
      fst (PollActions.submitVote pid i tok e s) = Ret None /\
      votes (snd (PollActions.submitVote pid i tok e s)) = app (votes s) [mkVote pid (uid u) i])).
Proof.
  intros pid i tok e s.
  destruct (csrf_block_arg_tables "Invalid security token. Please refresh and try again."
              tok e s) as [Hp [Hv Hform]].
  unfold PollActions.submitVote. unfold bind at 1. unfold getUser at 1.
  apply (then_cases _ _ e s (fun R => polls (snd R) = polls s /\
     ((votes (snd R) = votes s /\ exists m, fst R = Ret (Some m)) \/
      (exists u p, session_user e = Some u /\
         db_error e SelectVotes = None /\ count_votes pid (uid u) (votes s) = 0 /\
         db_error e SelectPoll = None /\
         filter (fun q => String.eqb (pl_id q) pid) (polls s) = [p] /\
         (0 <= i < Z.of_nat (List.length (pl_options p)))%Z /\
         db_error e InsertVote = None /\
         fst R = Ret None /\ votes (snd R) = app (votes s) [mkVote pid (uid u) i])))).
  - intros r s' Hb. rewrite Hb in Hp, Hv, Hform. simpl in *.
    destruct Hform as [Hn|[m Hm]]; [discriminate|]. inversion Hm; subst. eauto 6.
  - intros s' Hb. rewrite Hb in Hp, Hv. simpl in Hp, Hv.
    destruct (session_user e) as [u|] eqn:Hu; [|simpl; eauto 6].
    unfold bind, select_votes, ret. simpl.
    destruct (db_error e SelectVotes) eqn:Hsv; [simpl; eauto 6|].
    destruct (filter (fun v => String.eqb (poll_id v) pid && String.eqb (user_id v) (uid u))
                (votes s')) as [|v0 vs0] eqn:Hex; simpl; [|eauto 6].
    unfold select_poll_single.
    destruct (db_error e SelectPoll) eqn:Hsp; [simpl; eauto 6|].
    destruct (filter (fun q => String.eqb (pl_id q) pid) (polls s')) as [|p [|p2 ps]] eqn:Hf;
      simpl; try eauto 6.
    destruct ((i <? 0)%Z || (i >=? Z.of_nat (List.length (pl_options p)))%Z) eqn:Hr;
      [simpl; eauto 6|].
    unfold insert_vote. destruct (db_error e InsertVote) eqn:Hiv; [simpl; eauto 6|].
    simpl. split; [exact Hp|]. right. exists u, p.
    apply orb_false_iff in Hr as [Hr1 Hr2].
    rewrite Hp in Hf. rewrite Hv in Hex |- *.
    repeat split; auto.
    + unfold count_votes. rewrite Hex. reflexivity.
    + apply Z.ltb_ge in Hr1. exact Hr1.
    + rewrite Z.geb_leb in Hr2. apply Z.leb_gt in Hr2. exact Hr2.
  - intros x s' Hb. rewrite Hb in Hform. destruct Hform as [Hn|[m Hm]]; discriminate.
  - intros x s' Hb. rewrite Hb in Hform. destruct Hform as [Hn|[m Hm]]; discriminate.
Qed.

Lemma count_votes_zero : forall q w vs,
  count_votes q w vs = 0 ->
  filter (fun v => String.eqb (poll_id v) q && String.eqb (user_id v) w) vs = [].
Proof.
  unfold count_votes. intros q w vs H. apply length_zero_iff_nil. exact H.
Qed.

(** submitVote past the CSRF block with the live token, for a logged-in
    caller with no vote on an existing poll [p]: the option range decides. *)
Lemma submitVote_valid_token : forall pid i e s c u p,
  csrf_cookie s = Some c -> c_value c <> "" ->
  session_user e = Some u ->
  db_error e SelectVotes = None -> count_votes pid (uid u) (votes s) = 0 ->
  db_error e SelectPoll = None ->
  filter (fun q => String.eqb (pl_id q) pid) (polls s) = [p] ->
  exists s1, polls s1 = polls s /\ votes s1 = votes s /\
  PollActions.submitVote pid i (Some (c_value c)) e s =
    if (i <? 0)%Z || (i >=? Z.of_nat (List.length (pl_options p)))%Z
    then (Ret (Some "Invalid option selected"), s1)
    else match db_error e InsertVote with
         | Some m => (Ret (Some m), s1)
         | None => (Ret None, set_votes s1 (app (votes s) [mkVote pid (uid u) i]))
         end.
Proof.
  intros pid i e s c u p Hc Hnc Hu Hsv Hcnt Hsp Hf.
  destruct (csrf_block_arg_valid "Invalid security token. Please refresh and try again."
              e s c Hc Hnc) as [s1 [Hb [Hp Hv]]].
  exists s1. split; [exact Hp|]. split; [exact Hv|].
  unfold PollActions.submitVote. unfold bind at 1. unfold getUser at 1. simpl.
  unfold then_. unfold bind at 1. rewrite Hb. rewrite Hu.
  unfold bind, select_votes, select_poll_single, insert_vote, ret. simpl.
  rewrite Hsv, Hv, (count_votes_zero _ _ _ Hcnt). simpl. rewrite Hsp, Hp, Hf. simpl.
  destruct ((i <? 0)%Z || (i >=? Z.of_nat (List.length (pl_options p)))%Z); [reflexivity|].
  destruct (db_error e InsertVote); [reflexivity | rewrite Hv; reflexivity].
Qed.

(** ** C3: out-of-range option index *)




(** ** C5: one vote per user and poll under sequential calls *)

Lemma count_votes_app : forall q w vs v,
  count_votes q w (app vs [v]) =
  count_votes q w vs + (if String.eqb (poll_id v) q && String.eqb (user_id v) w then 1 else 0).
Proof.
  intros q w vs v. unfold count_votes. rewrite filter_app, length_app. simpl.
  destruct (String.eqb (poll_id v) q && String.eqb (user_id v) w); reflexivity.
Qed.

Lemma submitVote_already_voted : forall pid j e s c u,
  csrf_cookie s = Some c -> c_value c <> "" ->
  session_user e = Some u -> db_error e SelectVotes = None ->
  count_votes pid (uid u) (votes s) > 0 ->
  fst (PollActions.submitVote pid j (Some (c_value c)) e s)
    = Ret (Some "You have already voted on this poll.").
Proof.
  intros pid j e s c u Hc Hnc Hu Hsv Hcnt.
  destruct (csrf_block_arg_valid "Invalid security token. Please refresh and try again."
              e s c Hc Hnc) as [s1 [Hb [_ Hv]]].
  unfold PollActions.submitVote. unfold bind at 1. unfold getUser at 1. simpl.
  unfold then_. unfold bind at 1. rewrite Hb. rewrite Hu.
  unfold bind, select_votes, ret. simpl. rewrite Hsv, Hv.
  unfold count_votes in Hcnt.
  destruct (filter (fun v => String.eqb (poll_id v) pid && String.eqb (user_id v) (uid u))
              (votes s)); simpl in *; [lia | reflexivity].
Qed.

(** Every call of submitVote keeps "at most one vote row per (poll, user)". *)
Lemma submitVote_at_most_one : forall pid i tok e s,
  (forall q w, count_votes q w (votes s) <= 1) ->
  forall q w, count_votes q w (votes (snd (PollActions.submitVote pid i tok e s))) <= 1.
Proof.
  intros pid i tok e s Hinv q w.
  destruct (submitVote_cases pid i tok e s) as [_ [[Hv _]|Hok]].
  - rewrite Hv. apply Hinv.
  - destruct Hok as [u [p [_ [_ [Hcnt [_ [_ [_ [_ [_ Hv]]]]]]]]]].
    rewrite Hv, count_votes_app. simpl.
    destruct (String.eqb pid q && String.eqb (uid u) w) eqn:E.
    + apply andb_true_iff in E as [E1 E2].
      apply String.eqb_eq in E1, E2. subst. rewrite Hcnt. lia.
    + rewrite Nat.add_0_r. apply Hinv.
Qed.

(** C5: two sequential calls of submitVote by the same logged-in user on
    the same poll: the first (live token, valid index, no earlier vote,
    store calls succeeding) succeeds and records exactly one vote; the
    second, whatever its index and token, records nothing and fails, with
    "You have already voted on this poll." when it presents the live
    (rotated) token.  And no call of submitVote ever creates a second vote
    row for a (poll, user) pair. *)
Theorem sequential_votes_one_per_user :
  forall (pid : string) (i j : Z) (e : Env) (s : State) (c : Cookie) (u : User) (p : Poll),
  session_user e = Some u ->
  db_error e SelectVotes = None -> db_error e SelectPoll = None -> db_error e InsertVote = None ->
  filter (fun q => String.eqb (pl_id q) pid) (polls s) = [p] ->
  (0 <= i < Z.of_nat (List.length (pl_options p)))%Z ->
  count_votes pid (uid u) (votes s) = 0 ->
  csrf_cookie s = Some c -> c_value c <> "" ->
  fst (PollActions.submitVote pid i (Some (c_value c)) e s) = Ret None /\
  count_votes pid (uid u) (votes (snd (PollActions.submitVote pid i (Some (c_value c)) e s))) = 1 /\
  (forall tok2,
     let s1 := snd (PollActions.submitVote pid i (Some (c_value c)) e s) in
     votes (snd (PollActions.submitVote pid j tok2 e s1)) = votes s1 /\
     exists m, fst (PollActions.submitVote pid j tok2 e s1) = Ret (Some m)) /\
  (forall c',
     let s1 := snd (PollActions.submitVote pid i (Some (c_value c)) e s) in
     csrf_cookie s1 = Some c' -> c_value c' <> "" ->
     fst (PollActions.submitVote pid j (Some (c_value c')) e s1)
       = Ret (Some "You have already voted on this poll.")) /\
  (forall pid' k tok s',
     (forall q w, count_votes q w (votes s') <= 1) ->
     forall q w, count_votes q w (votes (snd (PollActions.submitVote pid' k tok e s'))) <= 1).
Proof.
  intros pid i j e s c u p Hu Hsv Hsp Hiv Hf Hin Hcnt Hc Hnc.
  destruct (submitVote_valid_token pid i e s c u p Hc Hnc Hu Hsv Hcnt Hsp Hf)
    as [s1 [Hp1 [Hv1 Heq]]].
  assert (Hr : ((i <? 0)%Z || (i >=? Z.of_nat (List.length (pl_options p)))%Z) = false).
  { apply orb_false_iff. split; [apply Z.ltb_ge; lia | rewrite Z.geb_leb; apply Z.leb_gt; lia]. }
  rewrite Hr, Hiv in Heq. rewrite Heq. simpl.
  assert (Hone : count_votes pid (uid u) (app (votes s) [mkVote pid (uid u) i]) = 1).
  { rewrite count_votes_app, Hcnt. simpl. rewrite !String.eqb_refl. reflexivity. }
  split; [reflexivity|]. split; [exact Hone|]. split; [|split].
  - intros tok2.
    destruct (submitVote_cases pid j tok2 e (set_votes s1 (app (votes s) [mkVote pid (uid u) i])))
      as [_ [[Hv Hm]|Hok]].
    + split; [exact Hv | exact Hm].
    + exfalso. destruct Hok as [u' [p' [Hu' [_ [Hcnt' _]]]]].
      rewrite Hu in Hu'. inversion Hu'; subst u'. simpl in Hcnt'. rewrite Hone in Hcnt'.
      discriminate.
  - intros c' Hc' Hnc'.
    apply (submitVote_already_voted pid j e (set_votes s1 (app (votes s) [mkVote pid (uid u) i]))
             c' u Hc' Hnc' Hu Hsv).
    simpl. rewrite Hone. lia.
  - intros pid' k tok s' Hinv. apply submitVote_at_most_one. exact Hinv.
Qed.

Lemma sequential_votes_one_per_user_witness :
  fst (PollActions.submitVote "p1" 1 (Some "tok") (env_of (Some alice)) st0) = Ret None /\
  fst (PollActions.submitVote "p1" 2
         (Some (next_token (env_of (Some alice)) st0)) (env_of (Some alice))
         (snd (PollActions.submitVote "p1" 1 (Some "tok") (env_of (Some alice)) st0)))
    = Ret (Some "You have already voted on this poll.").
Proof.
  destruct (sequential_votes_one_per_user "p1" 1 2 (env_of (Some alice)) st0 (cookie_of "tok")
              alice (mkPoll "p1" "u1" "Q" ["a"; "b"; "c"])
              eq_refl eq_refl eq_refl eq_refl eq_refl ltac:(simpl; lia) eq_refl eq_refl
              ltac:(discriminate))
    as [H1 [_ [_ [H4 _]]]].
  split; [exact H1|].
  exact (H4 (cookie_of (next_token (env_of (Some alice)) st0)) ltac:(vm_compute; reflexivity)
            ltac:(vm_compute; discriminate)).
Defined.

(** ** C6: which rule the input checks report *)

(** An option that passes the per-option checks of the loop. *)
Definition option_ok (o : FormDataEntryValue) : bool :=
  match o with
  | FStr t => Nat.leb (String.length t) 200 && negb (includes t "<script" || includes t "javascript:")
  | FFile => false
  end.

(** The message for an option that fails them: format, then length, then
    the denylist. *)
Definition option_error (o : FormDataEntryValue) : string :=
  match o with
  | FStr t => if Nat.ltb 200 (String.length t) then msg_option_long else msg_option_chars
  | FFile => msg_option_format
  end.

Lemma options_loop_first_bad : forall pre o post e s,
  forallb option_ok pre = true -> option_ok o = false ->
  options_loop (app pre (o :: post)) e s = (Ret (Some (Some (option_error o))), s).
Proof.
  induction pre as [|v pre IH]; intros o post e s Hpre Ho; simpl.
  - destruct o as [t|]; [|reflexivity]. simpl in Ho |- *.
    destruct (Nat.ltb 200 (String.length t)) eqn:Hl; [reflexivity|].
    apply Nat.ltb_ge, Nat.leb_le in Hl. rewrite Hl in Ho. simpl in Ho.
    apply negb_false_iff in Ho. rewrite Ho. reflexivity.
  - simpl in Hpre. apply andb_true_iff in Hpre as [Hv Hpre].
    destruct v as [t|]; [|discriminate]. simpl in Hv.
    apply andb_true_iff in Hv as [Hl Hi]. apply negb_true_iff in Hi.
    apply Nat.leb_le, Nat.ltb_ge in Hl. rewrite Hl, Hi. apply IH; assumption.
Qed.

Lemma options_loop_all_ok : forall opts e s,
  forallb option_ok opts = true -> options_loop opts e s = (Ret None, s).
Proof.
  induction opts as [|v opts IH]; intros e s H; simpl; [reflexivity|].
  simpl in H. apply andb_true_iff in H as [Hv H].
  destruct v as [t|]; [|discriminate]. simpl in Hv.
  apply andb_true_iff in Hv as [Hl Hi]. apply negb_true_iff in Hi.
  apply Nat.leb_le, Nat.ltb_ge in Hl. rewrite Hl, Hi. apply IH; assumption.
Qed.

(** C6 (as stated, refuted): first option containing "<script", second
    option of 201 characters: the checks report the invalid characters of
    the first option, not the length of the second. *)
Lemma first_bad_option_wins :
  fst (poll_input_checks (Some (FStr "Q"))
         [FStr "<script>"; FStr (String.concat "" (repeat "x" 201))] (env_of None) st0)
    = Ret (Some (Some msg_option_chars)).
Proof. vm_compute. reflexivity. Qed.

(** C6 (amended): for a question given as text (or absent) and the options
    left by [filter(Boolean)], the reported error is the first failure in
    this order: (1) no question or fewer than two options; (2) question
    longer than 500; (3) the options one by one, each checked for being
    text, then for length over 200, then for "<script" / "javascript:",
    the first failing option deciding; (4) "<script" / "javascript:" in
    the question.  Without a failure the checks pass. *)
Theorem input_checks_first_failure :
  forall (q : option string) (opts : list FormDataEntryValue) (e : Env) (s : State),
  let question := option_map FStr q in
  let r := fst (poll_input_checks question opts e s) in
  (negb (truthy_opt question) || Nat.ltb (List.length opts) 2 = true ->
     r = Ret (Some (Some msg_missing))) /\
  (forall t, q = Some t -> t <> "" -> 2 <= List.length opts ->
   (500 < String.length t -> r = Ret (Some (Some msg_question_long))) /\
   (String.length t <= 500 ->
      (forall pre o post, opts = app pre (o :: post) ->
         forallb option_ok pre = true -> option_ok o = false ->
         r = Ret (Some (Some (option_error o)))) /\
      (forallb option_ok opts = true ->
         r = Ret (if includes t "<script" || includes t "javascript:"
                  then Some (Some msg_question_chars) else None)))).
Proof.
  intros q opts e s question r. subst question r.
  split.
  - intros H. unfold poll_input_checks. rewrite H. reflexivity.
  - intros t Hq Hne Hlen. subst q. simpl.
    assert (Hr1 : negb (truthy_opt (Some (FStr t))) || Nat.ltb (List.length opts) 2 = false).
    { simpl. apply String.eqb_neq in Hne. rewrite Hne. simpl. apply Nat.ltb_ge. exact Hlen. }
    unfold poll_input_checks. rewrite Hr1.
    unfold bind. simpl. split; [|intros Hl; apply Nat.ltb_ge in Hl; split].
    + intros Hl. apply Nat.ltb_lt in Hl. rewrite Hl. reflexivity.
    + intros pre o post Hopts Hpre Ho. rewrite Hl.
      unfold seq_step, bind. rewrite Hopts, (options_loop_first_bad pre o post e s Hpre Ho).
      reflexivity.
    + intros Hall. rewrite Hl.
      unfold seq_step, bind. rewrite (options_loop_all_ok opts e s Hall). simpl.
      destruct (includes t "<script" || includes t "javascript:"); reflexivity.
Qed.

Lemma input_checks_first_failure_witness :
  fst (poll_input_checks (Some (FStr "Q"))
         [FStr "<script>"; FStr (String.concat "" (repeat "x" 201))] (env_of None) st0)
    = Ret (Some (Some msg_option_chars)).
Proof.
  destruct (input_checks_first_failure (Some "Q")
              [FStr "<script>"; FStr (String.concat "" (repeat "x" 201))] (env_of None) st0)
    as [_ H].
  destruct (H "Q" eq_refl ltac:(discriminate) ltac:(simpl; lia)) as [_ H2].
  destruct (H2 ltac:(simpl; lia)) as [H3 _].
  exact (H3 [] (FStr "<script>") [FStr (String.concat "" (repeat "x" 201))]
            eq_refl eq_refl eq_refl).
Defined.

(** ** C7: what createPoll stores *)

(** A form with a token, a question and the given options, in this order. *)
Definition poll_form (tok q : string) (opts : list string) : FormData :=
  ("csrf_token", FStr tok) :: ("question", FStr q) :: map (fun o => ("options", FStr o)) opts.

(** The options left by [filter(Boolean)] out of text options. *)
Definition nonempty_options (opts : list string) : list string :=
  filter (fun o => negb (String.eqb o "")) opts.

Lemma filter_truthy_text : forall opts,
  filter truthy (map FStr opts) = map FStr (nonempty_options opts).
Proof.
  induction opts as [|o opts IH]; simpl; [reflexivity|].
  unfold nonempty_options in *. simpl.
  destruct (negb (String.eqb o "")); simpl; rewrite IH; reflexivity.
Qed.

Lemma fd_getAll_poll_form_options : forall tok q opts,
  fd_getAll (poll_form tok q opts) "options" = map FStr opts.
Proof.
  intros tok q opts. unfold poll_form. simpl.
  induction opts as [|o opts IH]; simpl; [reflexivity|]. rewrite IH. reflexivity.
Qed.

Lemma sanitize_options_text : forall opts e s,
  sanitize_options (map FStr opts) e s = (Ret (map sanitize opts), s).
Proof.
  induction opts as [|o opts IH]; intros e s; simpl; [reflexivity|].
  unfold bind. simpl. rewrite IH. reflexivity.
Qed.

(** Text input with a non-empty question of at most 500 characters, at
    least two options each passing the option checks, and no "<script" /
    "javascript:" in the question passes all the input checks. *)
Lemma poll_input_checks_pass : forall q opts e s,
  q <> "" -> String.length q <= 500 -> 2 <= List.length opts ->
  forallb option_ok opts = true ->
  includes q "<script" || includes q "javascript:" = false ->
  poll_input_checks (Some (FStr q)) opts e s = (Ret None, s).
Proof.
  intros q opts e s Hne Hq Hl Hall Hi. unfold poll_input_checks.
  assert (H1 : negb (truthy_opt (Some (FStr q))) || Nat.ltb (List.length opts) 2 = false).
  { simpl. apply String.eqb_neq in Hne. rewrite Hne. simpl. apply Nat.ltb_ge. exact Hl. }
  rewrite H1. unfold bind. simpl.
  apply Nat.ltb_ge in Hq. rewrite Hq.
  unfold seq_step, bind. rewrite (options_loop_all_ok opts e s Hall). simpl.
  rewrite Hi. reflexivity.
Qed.

Lemma then_continue : forall (b : M Step) (k : M Res) e s s1,
  b e s = (Ret None, s1) -> then_ b k e s = k e s1.
Proof. intros b k e s s1 H. unfold then_, bind. rewrite H. reflexivity. Qed.

(** C7 (as stated, refuted): question "Q" and the two options "a" and ""
    (each at most 200 characters, no forbidden substring), live token,
    logged-in caller: the empty option is dropped by [filter(Boolean)],
    one option is left, and createPoll stores nothing and answers with the
    missing-fields error. *)
Lemma empty_option_dropped_then_rejected :
  PollActions.createPoll (poll_form "tok" "Q" ["a"; ""]) (env_of (Some alice)) st0
    = (Ret (Some msg_missing), snd (PollActions.createPoll (poll_form "tok" "Q" ["a"; ""]) (env_of (Some alice)) st0)) /\
  polls (snd (PollActions.createPoll (poll_form "tok" "Q" ["a"; ""]) (env_of (Some alice)) st0)) = polls st0.
Proof. split; vm_compute; reflexivity. Qed.

(** C7 (amended): with the live token in the form, a logged-in caller and
    a successful insert, if the question is text, non-empty, at most 500
    characters and free of "<script" / "javascript:", and the options that
    remain after dropping the empty ones are at least two, each at most 200
    characters and free of those substrings, then createPoll succeeds and
    appends exactly one row: its user_id is the caller's id, its question
    the question with [<] and [>] escaped and then trimmed, its options the
    remaining options escaped and trimmed the same way.  The votes are not
    touched.  With the live token, options of which fewer than two are
    non-empty (however many there are when the empty ones are counted) are
    rejected with the missing-fields error, and nothing is stored. *)
Theorem createPoll_stores_sanitized :
  forall tok q opts e s c u,
  csrf_cookie s = Some c -> c_value c = tok -> tok <> "" ->
  (List.length (nonempty_options opts) < 2 ->
   exists s1,
     PollActions.createPoll (poll_form tok q opts) e s = (Ret (Some msg_missing), s1) /\
     polls s1 = polls s /\ votes s1 = votes s) /\
  (session_user e = Some u -> auth_error e = None -> db_error e InsertPoll = None ->
   q <> "" -> String.length q <= 500 ->
   includes q "<script" || includes q "javascript:" = false ->
   2 <= List.length (nonempty_options opts) ->
   forallb option_ok (map FStr (nonempty_options opts)) = true ->
   exists s1 id,
     PollActions.createPoll (poll_form tok q opts) e s = (Ret None, s1) /\
     polls s1 = app (polls s) [mkPoll id (uid u) (sanitize q) (map sanitize (nonempty_options opts))] /\
     votes s1 = votes s).
Proof.
  intros tok q opts e s c u Hc Hv Hne.
  subst tok.
  destruct (csrf_block_form_valid (poll_form (c_value c) q opts) e s c Hc Hne eq_refl)
    as [s1 [Hb [Hp Hvs]]].
  assert (Hfq : fd_get (poll_form (c_value c) q opts) "question" = Some (FStr q)) by reflexivity.
  split.
  - intros Hl.
    unfold PollActions.createPoll. rewrite (then_continue _ _ e s s1 Hb).
    cbv zeta.
    rewrite Hfq, fd_getAll_poll_form_options, filter_truthy_text.
    assert (Hm : negb (truthy_opt (Some (FStr q))) ||
                 Nat.ltb (List.length (map FStr (nonempty_options opts))) 2 = true).
    { rewrite length_map. apply Nat.ltb_lt in Hl. rewrite Hl. apply orb_true_r. }
    unfold then_ at 1. unfold bind at 1. unfold poll_input_checks. rewrite Hm.
    exists s1. split; [reflexivity|]. split; assumption.
  - intros Hu Ha Hdb Hq Hql Hqi Hl Hall.
    unfold PollActions.createPoll. rewrite (then_continue _ _ e s s1 Hb).
    cbv zeta.
    rewrite Hfq, fd_getAll_poll_form_options, filter_truthy_text.
    rewrite (then_continue _ _ e s1 s1
               (poll_input_checks_pass q _ e s1 Hq Hql ltac:(rewrite length_map; exact Hl) Hall Hqi)).
    unfold getUser, bind. rewrite Hu, Ha. simpl.
    rewrite sanitize_options_text. unfold insert_poll. rewrite Hdb. simpl.
    eexists. eexists. split; [reflexivity|]. simpl. rewrite Hp, Hvs. split; reflexivity.
Qed.

Lemma createPoll_stores_sanitized_witness :
  (exists s1,
     PollActions.createPoll (poll_form "tok" "Q" ["a"; ""; ""]) (env_of (Some alice)) st0
       = (Ret (Some msg_missing), s1) /\
     polls s1 = polls st0 /\ votes s1 = votes st0) /\
  (exists s1 id,
    PollActions.createPoll (poll_form "tok" " <b>Q " ["a"; ""; "  "; "x>y"]) (env_of (Some alice)) st0
      = (Ret None, s1) /\
    polls s1 = app (polls st0) [mkPoll id "u1" "&lt;b&gt;Q" ["a"; ""; "x&gt;y"]] /\
    votes s1 = votes st0).
Proof.
  split.
  - exact (proj1 (createPoll_stores_sanitized "tok" "Q" ["a"; ""; ""] (env_of (Some alice)) st0
             (cookie_of "tok") alice eq_refl eq_refl ltac:(discriminate)) ltac:(simpl; lia)).
  - exact (proj2 (createPoll_stores_sanitized "tok" " <b>Q " ["a"; ""; "  "; "x>y"] (env_of (Some alice)) st0
             (cookie_of "tok") alice eq_refl eq_refl ltac:(discriminate)) eq_refl eq_refl eq_refl
             ltac:(discriminate) ltac:(simpl; lia) eq_refl ltac:(simpl; lia) eq_refl).
Defined.

(** ** C8: which actions answer with a result *)

(** The action ended with a [{ error }] value: nothing thrown, no redirect. *)
Definition returns_result {A} (p : Outcome A * State) : Prop :=
  exists a, fst p = Ret a.

(** Where the admin guard of admin-actions.ts sends the caller: nowhere for
    an admin, to "/polls" for another user, to "/login" without a user. *)
Definition admin_gate (e : Env) : option string :=
  match auth_error e, session_user e with
  | None, Some u => if isAdmin u then None else Some "/polls"
  | _, _ => Some "/login"
  end.

(** Splits every store answer and branch of an action body whose calls all
    answer. *)
Ltac split_answers :=
  unfold returns_result, getUser, select_votes, select_poll_single, insert_vote,
    insert_poll, delete_polls, update_polls, revalidatePath, try_catch, bind, ret;
  repeat (simpl; match goal with
                 | |- exists a, Ret _ = Ret a => eexists; reflexivity
                 | |- context [match ?x with _ => _ end] =>
                     lazymatch type of x with
                     | (_ * _)%type => fail
                     | _ => destruct x
                     end
                 end).

Lemma then_result : forall (b : M Step) (k : M Res) e s,
  (exists r, fst (b e s) = Ret r) ->
  (forall s', b e s = (Ret None, s') -> returns_result (k e s')) ->
  returns_result (then_ b k e s).
Proof.
  intros b k e s [r Hr] Hk. unfold then_, bind.
  destruct (b e s) as [o s'] eqn:E. simpl in Hr. subst o.
  destruct r as [r|]; [eexists; reflexivity | apply Hk; reflexivity].
Qed.

Lemma stops_ret : forall o, stops_with_error_or_goes_on o -> exists r, o = Ret r.
Proof. intros o [H|[m H]]; eexists; exact H. Qed.

Lemma csrf_block_arg_ret : forall msg t e s, exists r, fst (csrf_block_arg msg t e s) = Ret r.
Proof.
  intros msg t e s. apply stops_ret. apply (csrf_block_arg_tables msg t e s).
Qed.

Lemma csrf_block_form_ret : forall fd e s, exists r, fst (csrf_block_form fd e s) = Ret r.
Proof.
  intros fd e s. apply stops_ret. apply (csrf_block_form_tables fd e s).
Qed.

Lemma deletePoll1_result : forall pid tok e s,
  returns_result (PollActions.deletePoll pid tok e s).
Proof.
  intros pid tok e s. unfold PollActions.deletePoll.
  apply then_result; [apply csrf_block_arg_ret|]. intros s' _. split_answers.
Qed.

Lemma submitVote1_result : forall pid i tok e s,
  returns_result (PollActions.submitVote pid i tok e s).
Proof.
  intros pid i tok e s. unfold PollActions.submitVote, bind at 1. simpl.
  apply then_result; [apply csrf_block_arg_ret|]. intros s' _. split_answers.
Qed.

Lemma submitVote2_result : forall pid i e s,
  returns_result (PollActions2.submitVote pid i e s).
Proof. intros pid i e s. unfold PollActions2.submitVote. split_answers. Qed.

Lemma options_loop_none_text : forall opts e s s',
  options_loop opts e s = (Ret None, s') -> exists l, opts = map FStr l.
Proof.
  induction opts as [|v opts IH]; intros e s s' H; [exists []; reflexivity|].
  destruct v as [t|]; simpl in H; [|discriminate].
  destruct (Nat.ltb 200 (String.length t)); [discriminate|].
  destruct (includes t "<script" || includes t "javascript:"); [discriminate|].
  destruct (IH e s s' H) as [l ->]. exists (t :: l). reflexivity.
Qed.

(** Unless the question is a [File], the input checks answer, and they let
    the action go on only with a text question and text options. *)
Lemma poll_input_checks_answers : forall q opts e s, q <> Some FFile ->
  exists r, poll_input_checks q opts e s = (Ret r, s) /\
  (r = None -> exists t l, q = Some (FStr t) /\ opts = map FStr l).
Proof.
  intros q opts e s Hq. destruct q as [[t|]|]; [|contradiction|].
  - unfold poll_input_checks.
    destruct (negb (truthy_opt (Some (FStr t))) || Nat.ltb (List.length opts) 2).
    { eexists. split; [reflexivity|discriminate]. }
    unfold bind. simpl. destruct (Nat.ltb 500 (String.length t)).
    { eexists. split; [reflexivity|discriminate]. }
    unfold seq_step, bind.
    destruct (options_loop_pure opts) as [r [Hr [->|[m ->]]]]; rewrite Hr; simpl.
    + destruct (includes t "<script" || includes t "javascript:").
      * eexists. split; [reflexivity|discriminate].
      * eexists. split; [reflexivity|].
        intros _. destruct (options_loop_none_text opts e s s (Hr e s)) as [l Hl].
        exists t, l. split; [reflexivity|exact Hl].
    + eexists. split; [reflexivity|discriminate].
  - unfold poll_input_checks. simpl. eexists. split; [reflexivity|discriminate].
Qed.

Lemma createPoll1_result : forall fd e s, fd_get fd "question" <> Some FFile ->
  returns_result (PollActions.createPoll fd e s).
Proof.
  intros fd e s Hq. unfold PollActions.createPoll.
  apply then_result; [apply csrf_block_form_ret|]. intros s1 _. cbv zeta.
  destruct (poll_input_checks_answers (fd_get fd "question")
              (filter truthy (fd_getAll fd "options")) e s1 Hq) as [r [Hr Hnone]].
  apply then_result; [rewrite Hr; eexists; reflexivity|].
  intros s2 H2. rewrite Hr in H2. injection H2 as -> ->.
  destruct (Hnone eq_refl) as [t [l [-> ->]]].
  unfold getUser, bind at 1. simpl.
  destruct (auth_error e); [eexists; reflexivity|].
  destruct (session_user e); [|eexists; reflexivity].
  unfold bind. simpl. rewrite sanitize_options_text. split_answers.
Qed.

Lemma updatePoll1_result : forall pid fd e s, fd_get fd "question" <> Some FFile ->
  returns_result (PollActions.updatePoll pid fd e s).
Proof.
  intros pid fd e s Hq. unfold PollActions.updatePoll.
  apply then_result; [apply csrf_block_form_ret|]. intros s1 _. cbv zeta.
  destruct (poll_input_checks_answers (fd_get fd "question")
              (filter truthy (fd_getAll fd "options")) e s1 Hq) as [r [Hr Hnone]].
  apply then_result; [rewrite Hr; eexists; reflexivity|].
  intros s2 H2. rewrite Hr in H2. injection H2 as -> ->.
  destruct (Hnone eq_refl) as [t [l [-> ->]]].
  unfold bind at 1, getUser. simpl.
  destruct (auth_error e); [eexists; reflexivity|].
  destruct (session_user e); [|eexists; reflexivity].
  unfold bind, select_poll_single. simpl.
  destruct (db_error e SelectPoll); [eexists; reflexivity|].
  destruct (filter (fun p => String.eqb (pl_id p) pid) (polls s2)) as [|p [|p' l']];
    simpl; try (eexists; reflexivity).
  destruct (negb (String.eqb (pl_user_id p) (uid u))); simpl; [eexists; reflexivity|].
  rewrite sanitize_options_text. split_answers.
Qed.

Lemma updatePoll2_result : forall pid fd e s, fd_get fd "question" <> Some FFile ->
  returns_result (PollActions2.updatePoll pid fd e s).
Proof.
  intros pid fd e s Hq. unfold PollActions2.updatePoll. cbv zeta.
  destruct (poll_input_checks_answers (fd_get fd "question")
              (filter truthy (fd_getAll fd "options")) e s Hq) as [r [Hr Hnone]].
  apply then_result; [rewrite Hr; eexists; reflexivity|].
  intros s2 H2. rewrite Hr in H2. injection H2 as -> ->.
  destruct (Hnone eq_refl) as [t [l [-> ->]]].
  unfold bind at 1, getUser. simpl.
  destruct (auth_error e); [eexists; reflexivity|].
  destruct (session_user e); [|eexists; reflexivity].
  unfold bind, select_poll_single. simpl.
  destruct (db_error e SelectPoll); [eexists; reflexivity|].
  destruct (filter (fun p => String.eqb (pl_id p) pid) (polls s2)) as [|p [|p' l']];
    simpl; try (eexists; reflexivity).
  destruct (negb (String.eqb (pl_user_id p) (uid u))); simpl; [eexists; reflexivity|].
  rewrite sanitize_options_text. split_answers.
Qed.

Lemma checkAdminAccess_redirect_gate : forall e s,
  checkAdminAccess_redirect e s =
    match admin_gate e with None => (Ret true, s) | Some p => (Redirect p, s) end.
Proof.
  intros e s. unfold checkAdminAccess_redirect, admin_gate, getUser, bind. simpl.
  destruct (auth_error e), (session_user e) as [u|]; try reflexivity.
  destruct (isAdmin u); reflexivity.
Qed.

Lemma adminDeletePoll1_gate : forall pid tok e s,
  (forall p, admin_gate e = Some p -> fst (AdminActions.adminDeletePoll pid tok e s) = Redirect p) /\
  (admin_gate e = None -> returns_result (AdminActions.adminDeletePoll pid tok e s)).
Proof.
  intros pid tok e s. unfold AdminActions.adminDeletePoll, bind. cbv beta.
  rewrite checkAdminAccess_redirect_gate.
  destruct (admin_gate e) as [p|]; split.
  - intros q H. injection H as <-. reflexivity.
  - discriminate.
  - discriminate.
  - intros _. apply then_result; [apply csrf_block_arg_ret|]. intros s' _. split_answers.
Qed.

Lemma adminDeletePoll2_gate : forall pid e s,
  (forall p, admin_gate e = Some p -> fst (AdminActions2.adminDeletePoll pid e s) = Redirect p) /\
  (admin_gate e = None -> returns_result (AdminActions2.adminDeletePoll pid e s)).
Proof.
  intros pid e s. unfold AdminActions2.adminDeletePoll, bind. cbv beta.
  rewrite checkAdminAccess_redirect_gate.
  destruct (admin_gate e) as [p|]; split.
  - intros q H. injection H as <-. reflexivity.
  - discriminate.
  - discriminate.
  - intros _. split_answers.
Qed.

Lemma catch_to_stop_ret : forall (m : M Step) e s,
  exists r, fst (try_catch m (fun msg => stop (Some msg)) e s) = Ret r.
Proof.
  intros m e s. unfold try_catch. destruct (m e s) as [[a|x|x] s']; eexists; reflexivity.
Qed.

Lemma adminDeletePoll_helpers_gate : forall fd e s u,
  session_user e = Some u ->
  (isAdmin u = false -> fst (Helpers.adminDeletePoll fd e s) = Redirect "/polls") /\
  (isAdmin u = true -> returns_result (Helpers.adminDeletePoll fd e s)).
Proof.
  intros fd e s u Hu.
  unfold Helpers.adminDeletePoll, Helpers.checkAdminAccess, Helpers.getAuthenticatedUser,
    getUser, bind. cbv beta. rewrite Hu. simpl.
  split; intros Ha; rewrite Ha; simpl; [reflexivity|].
  fold (@bind Step Res). fold (then_ (try_catch (_ <- csrfProtection fd ;; continue)
                                     (fun msg => stop (Some msg)))).
  apply then_result; [apply catch_to_stop_ret|]. intros s' _. split_answers.
Qed.

(** C8 (as stated, refuted): a logged-in user without the admin flag who
    calls adminDeletePoll gets no [{ error }] value: the guard's
    [redirect('/polls')] leaves the action. *)
Lemma non_admin_redirected :
  fst (AdminActions.adminDeletePoll "p1" (Some "tok") (env_of (Some alice)) st0) = Redirect "/polls" /\
  fst (Helpers.adminDeletePoll [("csrf_token", FStr "tok"); ("poll_id", FStr "p1")]
         (env_of (Some alice)) st0) = Redirect "/polls".
Proof. split; vm_compute; reflexivity. Qed.

(** C8 (amended): every store answer, token check and validation failure
    ends in an [{ error }] value for createPoll, updatePoll, deletePoll and
    submitVote of the first section of poll-actions.ts, and for updatePoll
    and submitVote of the second, as long as the [question] field is not a
    file.  adminDeletePoll (all three versions) answers with [{ error }]
    once its admin guard lets an admin through; the guard itself signals
    with a redirect: "/polls" for a user without the admin flag and, in
    admin-actions.ts, "/login" without a user or on an auth error. *)
Theorem actions_answer_with_results : forall e s,
  (forall fd, fd_get fd "question" <> Some FFile ->
     returns_result (PollActions.createPoll fd e s) /\
     (forall pid, returns_result (PollActions.updatePoll pid fd e s)) /\
     (forall pid, returns_result (PollActions2.updatePoll pid fd e s))) /\
  (forall pid tok, returns_result (PollActions.deletePoll pid tok e s)) /\
  (forall pid i tok, returns_result (PollActions.submitVote pid i tok e s)) /\
  (forall pid i, returns_result (PollActions2.submitVote pid i e s)) /\
  (admin_gate e = None ->
     (forall pid tok, returns_result (AdminActions.adminDeletePoll pid tok e s)) /\
     (forall pid, returns_result (AdminActions2.adminDeletePoll pid e s)) /\
     (forall fd, returns_result (Helpers.adminDeletePoll fd e s))) /\
  (forall p, admin_gate e = Some p ->
     (forall pid tok, fst (AdminActions.adminDeletePoll pid tok e s) = Redirect p) /\
     (forall pid, fst (AdminActions2.adminDeletePoll pid e s) = Redirect p)) /\
  (forall u, session_user e = Some u -> isAdmin u = false ->
     forall fd, fst (Helpers.adminDeletePoll fd e s) = Redirect "/polls").
Proof.
  intros e s.
  split; [intros fd Hq; split; [|split]; intros;
          [apply createPoll1_result | apply updatePoll1_result | apply updatePoll2_result];
          exact Hq|].
  split; [intros; apply deletePoll1_result|].
  split; [intros; apply submitVote1_result|].
  split; [intros; apply submitVote2_result|].
  split; [|split].
  - intros Hg. split; [|split].
    + intros pid tok. apply (adminDeletePoll1_gate pid tok e s). exact Hg.
    + intros pid. apply (adminDeletePoll2_gate pid e s). exact Hg.
    + intros fd. unfold admin_gate in Hg.
      destruct (auth_error e); [discriminate|].
      destruct (session_user e) as [u|] eqn:Hu; [|discriminate].
      destruct (isAdmin u) eqn:Ha; [|discriminate].
      apply (adminDeletePoll_helpers_gate fd e s u Hu). exact Ha.
  - intros p Hg. split.
    + intros pid tok. apply (adminDeletePoll1_gate pid tok e s). exact Hg.
    + intros pid. apply (adminDeletePoll2_gate pid e s). exact Hg.
  - intros u Hu Ha fd. apply (adminDeletePoll_helpers_gate fd e s u Hu). exact Ha.
Qed.

Lemma actions_answer_with_results_witness :
  returns_result (PollActions.createPoll [("question", FStr "Q")] (env_of (Some alice)) st0) /\
  returns_result (Helpers.adminDeletePoll [("poll_id", FStr "p1")] (env_of (Some root_admin)) st0) /\
  fst (AdminActions.adminDeletePoll "p1" None (env_of (Some alice)) st0) = Redirect "/polls" /\
  fst (Helpers.adminDeletePoll [] (env_of (Some alice)) st0) = Redirect "/polls".
Proof.
  destruct (actions_answer_with_results (env_of (Some alice)) st0)
    as [Hform [_ [_ [_ [_ [Hred Hhelp]]]]]].
  destruct (actions_answer_with_results (env_of (Some root_admin)) st0)
    as [_ [_ [_ [_ [Hadm _]]]]].
  split; [apply (Hform [("question", FStr "Q")]); discriminate|].
  split; [apply (Hadm eq_refl)|].
  split; [apply (Hred "/polls" eq_refl)|].
  apply (Hhelp alice eq_refl eq_refl).
Defined.

(** ** C9: blank questions and options *)

(** Every character is white space for [trim]. *)
Fixpoint all_js_space (s : string) : bool :=
  match s with
  | EmptyString => true
  | String c rest => is_js_space c && all_js_space rest
  end.

Lemma js_space_not : forall c a, is_js_space c = true -> is_js_space a = false -> c <> a.
Proof. intros c a Hc Ha ->. congruence. Qed.

Lemma replace_lt_blank : forall s, all_js_space s = true -> replace_lt s = s.
Proof.
  induction s as [|c s IH]; simpl; intros H; [reflexivity|].
  apply andb_true_iff in H as [Hc H].
  destruct (Ascii.eqb c "<"%char) eqn:E.
  - apply Ascii.eqb_eq in E. subst c. discriminate.
  - rewrite IH by exact H. reflexivity.
Qed.

Lemma replace_gt_blank : forall s, all_js_space s = true -> replace_gt s = s.
Proof.
  induction s as [|c s IH]; simpl; intros H; [reflexivity|].
  apply andb_true_iff in H as [Hc H].
  destruct (Ascii.eqb c ">"%char) eqn:E.
  - apply Ascii.eqb_eq in E. subst c. discriminate.
  - rewrite IH by exact H. reflexivity.
Qed.

Lemma trim_start_blank : forall s, all_js_space s = true -> trim_start s = "".
Proof.
  induction s as [|c s IH]; simpl; intros H; [reflexivity|].
  apply andb_true_iff in H as [Hc H]. rewrite Hc. apply IH. exact H.
Qed.

Lemma sanitize_blank : forall s, all_js_space s = true -> sanitize s = "".
Proof.
  intros s H. unfold sanitize, trim.
  rewrite replace_lt_blank, replace_gt_blank, trim_start_blank by exact H.
  reflexivity.
Qed.

Lemma includes_blank : forall s a p, all_js_space s = true -> is_js_space a = false ->
  includes s (String a p) = false.
Proof.
  induction s as [|c s IH]; intros a p H Ha; simpl; [reflexivity|].
  apply andb_true_iff in H as [Hc H].
  destruct (ascii_dec a c) as [->|_]; [congruence|]. simpl. apply IH; assumption.
Qed.

Lemma blank_option_ok : forall o, all_js_space o = true -> String.length o <= 200 ->
  option_ok (FStr o) = true.
Proof.
  intros o H Hl. simpl. apply Nat.leb_le in Hl. rewrite Hl.
  rewrite !includes_blank by (exact H || reflexivity). reflexivity.
Qed.

(** C9: a blank option (white space only, at most 200 characters) passes
    every option check and a blank question passes the truthiness and
    substring checks; createPoll stores both as the empty string.  Options
    that are exactly [""] are dropped by [filter(Boolean)] before the count:
    with the live token, a logged-in caller and a successful insert, a
    blank question with at least two other valid options is stored as [""]
    next to the escaped and trimmed non-empty options, and with fewer than
    two non-empty options the only answer is the missing-fields error. *)
Theorem blank_inputs_stored_empty :
  (forall o, all_js_space o = true -> String.length o <= 200 ->
     option_ok (FStr o) = true /\ sanitize o = "") /\
  (forall tok q opts e s c u,
   csrf_cookie s = Some c -> c_value c = tok -> tok <> "" ->
   session_user e = Some u -> auth_error e = None -> db_error e InsertPoll = None ->
   q <> "" -> all_js_space q = true -> String.length q <= 500 ->
   (2 <= List.length (nonempty_options opts) ->
    forallb option_ok (map FStr (nonempty_options opts)) = true ->
    exists s1 id,
      PollActions.createPoll (poll_form tok q opts) e s = (Ret None, s1) /\
      polls s1 = app (polls s) [mkPoll id (uid u) "" (map sanitize (nonempty_options opts))]) /\
   (List.length (nonempty_options opts) < 2 ->
    exists s1,
      PollActions.createPoll (poll_form tok q opts) e s = (Ret (Some msg_missing), s1) /\
      polls s1 = polls s)).
Proof.
  split.
  { intros o H Hl. split; [apply blank_option_ok | apply sanitize_blank]; assumption. }
  intros tok q opts e s c u Hc Hv Hne Hu Ha Hdb Hq Hblank Hql. subst tok.
  destruct (csrf_block_form_valid (poll_form (c_value c) q opts) e s c Hc Hne eq_refl)
    as [s1 [Hb [Hp Hvs]]].
  unfold PollActions.createPoll. rewrite (then_continue _ _ e s s1 Hb).
  cbv zeta.
  assert (Hfq : fd_get (poll_form (c_value c) q opts) "question" = Some (FStr q)) by reflexivity.
  rewrite Hfq, fd_getAll_poll_form_options, filter_truthy_text.
  assert (Hi : includes q "<script" || includes q "javascript:" = false).
  { rewrite !includes_blank by (exact Hblank || reflexivity). reflexivity. }
  split.
  - intros Hl Hall.
    rewrite (then_continue _ _ e s1 s1
               (poll_input_checks_pass q _ e s1 Hq Hql ltac:(rewrite length_map; exact Hl) Hall Hi)).
    unfold getUser, bind. rewrite Hu, Ha. simpl.
    rewrite sanitize_options_text. unfold insert_poll. rewrite Hdb. simpl.
    rewrite (sanitize_blank q Hblank).
    eexists. eexists. split; [reflexivity|]. simpl. rewrite Hp. reflexivity.
  - intros Hl. unfold then_ at 1, poll_input_checks, bind at 1.
    rewrite length_map. apply Nat.ltb_lt in Hl. rewrite Hl, orb_true_r. simpl.
    eexists. split; [reflexivity | exact Hp].
Qed.

Lemma blank_inputs_stored_empty_witness :
  option_ok (FStr " ") = true /\ sanitize " " = "" /\
  (exists s1 id,
     PollActions.createPoll (poll_form "tok" "   " ["a"; ""; "  "]) (env_of (Some alice)) st0
       = (Ret None, s1) /\
     polls s1 = app (polls st0) [mkPoll id "u1" "" ["a"; ""]]) /\
  (exists s1,
     PollActions.createPoll (poll_form "tok" "   " ["a"; ""]) (env_of (Some alice)) st0
       = (Ret (Some msg_missing), s1) /\ polls s1 = polls st0).
Proof.
  destruct blank_inputs_stored_empty as [Hopt Hform].
  destruct (Hopt " " eq_refl ltac:(simpl; lia)) as [H1 H2].
  split; [exact H1|]. split; [exact H2|].
  split.
  - destruct (Hform "tok" "   " ["a"; ""; "  "] (env_of (Some alice)) st0 (cookie_of "tok") alice
                eq_refl eq_refl ltac:(discriminate) eq_refl eq_refl eq_refl
                ltac:(discriminate) eq_refl ltac:(simpl; lia)) as [H3 _].
    exact (H3 ltac:(simpl; lia) eq_refl).
  - destruct (Hform "tok" "   " ["a"; ""] (env_of (Some alice)) st0 (cookie_of "tok") alice
                eq_refl eq_refl ltac:(discriminate) eq_refl eq_refl eq_refl
                ltac:(discriminate) eq_refl ltac:(simpl; lia)) as [_ H4].
    exact (H4 ltac:(simpl; lia)).
Defined.

(** The paths that end in an exception: a [File] sent as [question]
    (first-section createPoll), an unauthenticated caller of the helpers.ts
    adminDeletePoll (getAuthenticatedUser throws), and the second-section
    deletePoll and createPoll after their store call succeeded
    ([revalidatePath] of [next/navigation]).  The first line is the same
    createPoll request with a text question, for contrast. *)
Lemma actions_that_throw :
  fst (PollActions.createPoll
         [("csrf_token", FStr "tok"); ("question", FStr "Q"); ("options", FStr "a"); ("options", FStr "b")]
         (env_of (Some alice)) st0) = Ret None /\
  fst (PollActions.createPoll
         [("csrf_token", FStr "tok"); ("question", FFile); ("options", FStr "a"); ("options", FStr "b")]
         (env_of (Some alice)) st0) = Throw "TypeError: the method is not a function on a File" /\
  fst (Helpers.adminDeletePoll [("csrf_token", FStr "tok"); ("poll_id", FStr "p1")]
         (env_of None) st0) = Throw "User not authenticated." /\
  PollActions2.deletePoll "p1" (env_of (Some alice)) st0
    = (Throw "TypeError: revalidatePath is not a function", set_polls st0 []) /\
  fst (PollActions2.createPoll
         [("csrf_token", FStr "tok"); ("question", FStr "Q"); ("options", FStr "a"); ("options", FStr "b")]
         (env_of (Some alice)) st0) = Throw "TypeError: revalidatePath is not a function".
Proof. vm_compute. repeat split. Qed.

(* ================================================================== *)
(** * Further properties of the code *)

(** ** The sanitization of createPoll and updatePoll *)

Fixpoint contains_char (c : ascii) (s : string) : bool :=
  match s with
  | EmptyString => false
  | String c' rest => Ascii.eqb c' c || contains_char c rest
  end.

(** The string does not start with white space ([""] counts as clean). *)
Definition starts_clean (s : string) : bool :=
  match s with
  | EmptyString => true
  | String c _ => negb (is_js_space c)
  end.

Lemma contains_char_app : forall c s1 s2,
  contains_char c (s1 ++ s2) = contains_char c s1 || contains_char c s2.
Proof.
  intros c s1 s2. induction s1 as [|c1 s1 IH]; simpl; [reflexivity|].
  rewrite IH, orb_assoc. reflexivity.
Qed.

Lemma replace_lt_no_lt : forall s, contains_char "<" (replace_lt s) = false.
Proof.
  induction s as [|c s IH]; simpl; [reflexivity|].
  destruct (Ascii.eqb c "<") eqn:E; simpl; [exact IH|]. rewrite E. exact IH.
Qed.

Lemma replace_gt_keeps_no_lt : forall s, contains_char "<" s = false ->
  contains_char "<" (replace_gt s) = false.
Proof.
  induction s as [|c s IH]; simpl; intros H; [reflexivity|].
  apply orb_false_iff in H as [Hc H].
  destruct (Ascii.eqb c ">") eqn:E; simpl; [apply IH, H|]. rewrite Hc. apply IH, H.
Qed.

Lemma replace_gt_no_gt : forall s, contains_char ">" (replace_gt s) = false.
Proof.
  induction s as [|c s IH]; simpl; [reflexivity|].
  destruct (Ascii.eqb c ">") eqn:E; simpl; [exact IH|]. rewrite E. exact IH.
Qed.

Lemma trim_start_suffix : forall s, exists p, s = p ++ trim_start s.
Proof.
  induction s as [|c s IH]; simpl; [exists ""; reflexivity|].
  destruct (is_js_space c).
  - destruct IH as [p Hp]. exists (String c p). simpl. rewrite <- Hp. reflexivity.
  - exists "". reflexivity.
Qed.

Lemma str_app_nil_r : forall s, s ++ "" = s.
Proof. induction s as [|c s IH]; simpl; [reflexivity|]. rewrite IH. reflexivity. Qed.

Lemma str_app_assoc : forall s1 s2 s3, (s1 ++ s2) ++ s3 = s1 ++ (s2 ++ s3).
Proof.
  induction s1 as [|c s1 IH]; intros s2 s3; simpl; [reflexivity|]. rewrite IH. reflexivity.
Qed.

Lemma rev_str_app : forall s1 s2, rev_str (s1 ++ s2) = rev_str s2 ++ rev_str s1.
Proof.
  induction s1 as [|c s1 IH]; intros s2; simpl.
  - rewrite str_app_nil_r. reflexivity.
  - rewrite IH, str_app_assoc. reflexivity.
Qed.

Lemma rev_str_involutive : forall s, rev_str (rev_str s) = s.
Proof.
  induction s as [|c s IH]; simpl; [reflexivity|].
  rewrite rev_str_app, IH. reflexivity.
Qed.

Lemma contains_char_rev : forall c s, contains_char c (rev_str s) = contains_char c s.
Proof.
  intros c s. induction s as [|c' s IH]; simpl; [reflexivity|].
  rewrite contains_char_app, IH. simpl. rewrite orb_false_r, orb_comm. reflexivity.
Qed.

Lemma contains_char_trim_start : forall c s, contains_char c s = false ->
  contains_char c (trim_start s) = false.
Proof.
  intros c s H. destruct (trim_start_suffix s) as [p Hp].
  rewrite Hp, contains_char_app in H. apply orb_false_iff in H as [_ H]. exact H.
Qed.

Lemma contains_char_trim : forall c s, contains_char c s = false ->
  contains_char c (trim s) = false.
Proof.
  intros c s H. unfold trim, trim_end.
  rewrite contains_char_rev. apply contains_char_trim_start.
  rewrite contains_char_rev. apply contains_char_trim_start. exact H.
Qed.

Lemma starts_clean_trim_start : forall s, starts_clean (trim_start s) = true.
Proof.
  induction s as [|c s IH]; simpl; [reflexivity|].
  destruct (is_js_space c) eqn:E; [exact IH|]. simpl. rewrite E. reflexivity.
Qed.

Lemma trim_start_clean : forall s, starts_clean s = true -> trim_start s = s.
Proof.
  intros [|c s] H; simpl in *; [reflexivity|].
  apply negb_true_iff in H. rewrite H. reflexivity.
Qed.

Lemma trim_start_idem : forall s, trim_start (trim_start s) = trim_start s.
Proof. intros s. apply trim_start_clean, starts_clean_trim_start. Qed.

(** Dropping trailing white space keeps a clean start. *)
Lemma starts_clean_trim_end : forall y, starts_clean y = true -> starts_clean (trim_end y) = true.
Proof.
  intros y H. unfold trim_end.
  destruct (trim_start_suffix (rev_str y)) as [p Hp].
  assert (Hy : y = rev_str (trim_start (rev_str y)) ++ rev_str p).
  { rewrite <- rev_str_app, <- Hp, rev_str_involutive. reflexivity. }
  destruct (rev_str (trim_start (rev_str y))) as [|c r] eqn:E; [reflexivity|].
  rewrite Hy in H. exact H.
Qed.


Lemma replace_lt_id : forall s, contains_char "<" s = false -> replace_lt s = s.
Proof.
  induction s as [|c s IH]; simpl; intros H; [reflexivity|].
  apply orb_false_iff in H as [Hc H]. rewrite Hc, IH by exact H. reflexivity.
Qed.

Lemma replace_gt_id : forall s, contains_char ">" s = false -> replace_gt s = s.
Proof.
  induction s as [|c s IH]; simpl; intros H; [reflexivity|].
  apply orb_false_iff in H as [Hc H]. rewrite Hc, IH by exact H. reflexivity.
Qed.

Lemma trim_idem : forall s, trim (trim s) = trim s.
Proof.
  intros s. unfold trim.
  rewrite (trim_start_clean (trim_end (trim_start s)))
    by (apply starts_clean_trim_end, starts_clean_trim_start).
  unfold trim_end. rewrite rev_str_involutive, trim_start_idem. reflexivity.
Qed.

Lemma sanitize_no_angle : forall s,
  contains_char "<" (sanitize s) = false /\ contains_char ">" (sanitize s) = false.
Proof.
  intros s. unfold sanitize. split; apply contains_char_trim.
  - apply replace_gt_keeps_no_lt, replace_lt_no_lt.
  - apply replace_gt_no_gt.
Qed.

(** X1: the sanitized text of a question or option never holds a raw [<] or
    [>]: every one is escaped as [&lt;] / [&gt;], and trimming adds none. *)
Theorem sanitize_escapes_angle_brackets : forall s,
  contains_char "<" (sanitize s) = false /\ contains_char ">" (sanitize s) = false.
Proof.
  intros s. unfold sanitize. split; apply contains_char_trim.
  - apply replace_gt_keeps_no_lt, replace_lt_no_lt.
  - apply replace_gt_no_gt.
Qed.

(** X2: sanitizing twice gives the same text as sanitizing once: the
    escapes hold no [<] or [>] and a trimmed text has nothing left to trim. *)
Theorem sanitize_idempotent : forall s, sanitize (sanitize s) = sanitize s.
Proof.
  intros s. destruct (sanitize_no_angle s) as [Hlt Hgt].
  unfold sanitize at 1. rewrite (replace_lt_id _ Hlt), (replace_gt_id _ Hgt).
  unfold sanitize. apply trim_idem.
Qed.

(** X3: the sanitized text neither starts nor ends with white space. *)
Theorem sanitize_trimmed : forall s,
  (forall c r, sanitize s = String c r -> is_js_space c = false) /\
  (forall i c, sanitize s = i ++ String c "" -> is_js_space c = false).
Proof.
  intros s. unfold sanitize, trim. split.
  - intros c r H.
    pose proof (starts_clean_trim_end _ (starts_clean_trim_start (replace_gt (replace_lt s)))) as Hc.
    rewrite H in Hc. simpl in Hc. apply negb_true_iff in Hc. exact Hc.
  - intros i c H.
    pose proof (starts_clean_trim_start (rev_str (trim_start (replace_gt (replace_lt s))))) as Hc.
    assert (Hr : rev_str (trim_end (trim_start (replace_gt (replace_lt s))))
                 = trim_start (rev_str (trim_start (replace_gt (replace_lt s))))).
    { unfold trim_end. apply rev_str_involutive. }
    rewrite <- Hr, H, rev_str_app in Hc. simpl in Hc. apply negb_true_iff in Hc. exact Hc.
Qed.

(** ** Tokens of csrf.ts *)

Definition is_hex_char (c : ascii) : bool :=
  let n := nat_of_ascii c in
  (Nat.leb 48 n && Nat.leb n 57) || (Nat.leb 97 n && Nat.leb n 102).

Fixpoint all_hex (s : string) : bool :=
  match s with
  | EmptyString => true
  | String c rest => is_hex_char c && all_hex rest
  end.

Lemma generateCsrfToken_eq : forall e s,
  generateCsrfToken e s =
    (Ret (next_token e s),
     set_cookie s (mkCookie (next_token e s) true (production e) "strict" "/" 3600)
                (rng_pos s + 32)).
Proof. intros e s. reflexivity. Qed.

Lemma hex_digit_hex : forall n, n < 16 -> is_hex_char (hex_digit n) = true.
Proof.
  intros n Hn.
  do 16 (destruct n as [|n]; [reflexivity|]). lia.
Qed.

Lemma to_hex_shape : forall bs,
  String.length (to_hex bs) = 2 * List.length bs /\ all_hex (to_hex bs) = true.
Proof.
  induction bs as [|b bs [IHl IHh]]; [split; reflexivity|].
  change (to_hex (b :: bs)) with
    (String (hex_digit (Nat.div (Byte.to_nat b) 16))
            (String (hex_digit (Nat.modulo (Byte.to_nat b) 16)) (to_hex bs))).
  cbn [String.length all_hex List.length].
  split; [rewrite IHl; lia|].
  pose proof (Byte.to_nat_bounded b) as Hb.
  rewrite !hex_digit_hex, IHh; [reflexivity| |].
  - apply Nat.mod_upper_bound. discriminate.
  - apply Nat.Div0.div_lt_upper_bound. lia.
Qed.

(** X4: generateCsrfToken returns 64 lower-case hexadecimal characters and
    stores exactly that value in the [csrf_token] cookie: HTTP-only,
    [sameSite] strict, path [/], one hour, [secure] in production only.
    The poll and vote tables are untouched. *)
Theorem generated_token_shape : forall e s, exists t s',
  generateCsrfToken e s = (Ret t, s') /\
  String.length t = 64 /\ all_hex t = true /\
  csrf_cookie s' = Some (mkCookie t true (production e) "strict" "/" 3600) /\
  polls s' = polls s /\ votes s' = votes s.
Proof.
  intros e s. rewrite generateCsrfToken_eq. do 2 eexists. split; [reflexivity|].
  unfold next_token. destruct (to_hex_shape (map (random_byte e) (seq (rng_pos s) 32))) as [Hl Hh].
  rewrite length_map, length_seq in Hl.
  repeat split; assumption || reflexivity.
Qed.

(** X5: a token just issued by generateCsrfToken is accepted by the next
    validateCsrfToken call, which then rotates it: the cookie is replaced by
    a new token drawn from the next 32 bytes of the random stream, with the
    same cookie settings, and the tables are unchanged. *)
Theorem issued_token_accepted : forall e s t s1,
  generateCsrfToken e s = (Ret t, s1) ->
  validateCsrfToken (FStr t) e s1 =
    (Ret true,
     set_cookie s1 (mkCookie (next_token e s1) true (production e) "strict" "/" 3600)
       (rng_pos s1 + 32)).
Proof.
  intros e s t s1 H. rewrite generateCsrfToken_eq in H. injection H as <- <-.
  assert (Hne : String.eqb (next_token e s) "" = false).
  { apply String.eqb_neq. unfold next_token.
    destruct (to_hex_shape (map (random_byte e) (seq (rng_pos s) 32))) as [Hl _].
    rewrite length_map, length_seq in Hl. intros E. rewrite E in Hl. discriminate. }
  rewrite validateCsrfToken_eq.
  remember (next_token e s) as t eqn:Et. clear Et. simpl.
  rewrite Hne, String.eqb_refl. reflexivity.
Qed.

Lemma issued_token_accepted_witness :
  generateCsrfToken (env_of None) st0 = (Ret (next_token (env_of None) st0), snd (generateCsrfToken (env_of None) st0)) /\
  validateCsrfToken (FStr (next_token (env_of None) st0)) (env_of None)
    (snd (generateCsrfToken (env_of None) st0)) =
    (Ret true,
     set_cookie (snd (generateCsrfToken (env_of None) st0))
       (mkCookie (next_token (env_of None) (snd (generateCsrfToken (env_of None) st0)))
          true false "strict" "/" 3600)
       (rng_pos (snd (generateCsrfToken (env_of None) st0)) + 32)).
Proof.
  split; [reflexivity|].
  apply (issued_token_accepted (env_of None) st0). reflexivity.
Defined.

(** X6: csrfProtection (csrf.ts) accepts a form exactly when its
    [csrf_token] field is text equal to the non-empty value of the stored
    cookie.  Every rejection throws "CSRF token missing" or "Invalid or
    expired CSRF token" and leaves the whole state, cookie included,
    unchanged; nothing ends in a redirect. *)
Theorem csrfProtection_accepts_exactly_stored : forall fd e s,
  (fst (csrfProtection fd e s) = Ret true <->
     exists c, csrf_cookie s = Some c /\ c_value c <> "" /\
               fd_get fd "csrf_token" = Some (FStr (c_value c))) /\
  (forall o s', csrfProtection fd e s = (o, s') -> o <> Ret true ->
     s' = s /\ (o = Throw "CSRF token missing" \/ o = Throw "Invalid or expired CSRF token")).
Proof.
  intros fd e s. unfold csrfProtection.
  destruct (fd_get fd "csrf_token") as [t|] eqn:Ef.
  2:{ split; [split; [discriminate| intros [c [_ [_ H]]]; discriminate]|].
      intros o s' H _. injection H as <- <-. auto. }
  destruct (negb (truthy t)) eqn:Et.
  { split; [split; [discriminate|]|].
    - intros [c [_ [Hne H]]]. injection H as Ht. subst t. simpl in Et.
      apply String.eqb_neq in Hne. rewrite Hne in Et. discriminate.
    - intros o s' H _. injection H as <- <-. auto. }
  unfold bind. rewrite validateCsrfToken_eq.
  destruct (csrf_cookie s) as [c|] eqn:Ec.
  2:{ simpl. split; [split; [discriminate| intros [c [H _]]; discriminate]|].
      intros o s' H _. injection H as <- <-. auto. }
  destruct (String.eqb (c_value c) "" || negb (truthy t) || js_neq_str t (c_value c)) eqn:Ev.
  - simpl. split; [split; [discriminate|]|].
    + intros [c' [Hc' [Hne H]]]. injection Hc' as Hc'. subst c'. injection H as Ht. subst t.
      apply String.eqb_neq in Hne. simpl in Ev. rewrite Hne, String.eqb_refl in Ev. discriminate.
    + intros o s' H _. injection H as <- <-. auto.
  - simpl. split; [split; [intros _|reflexivity]|].
    + exists c. apply orb_false_iff in Ev as [Ev Hneq]. apply orb_false_iff in Ev as [Hne _].
      apply String.eqb_neq in Hne. split; [reflexivity|]. split; [exact Hne|].
      destruct t as [t|]; [|discriminate]. simpl in Hneq.
      apply negb_false_iff, String.eqb_eq in Hneq. subst t. reflexivity.
    + intros o s' H Hn. injection H as <- <-. contradiction.
Qed.

(** ** The callers of the actions *)

Lemma deletePoll1_no_token : forall pid e s,
  PollActions.deletePoll pid None e s = (Ret (Some "Missing security token"), s).
Proof. intros pid e s. reflexivity. Qed.

Lemma submitVote1_no_token : forall pid i e s,
  PollActions.submitVote pid i None e s = (Ret (Some "Missing security token"), s).
Proof. intros pid i e s. reflexivity. Qed.

(** X7: the vote button of SecurePollPage never records a vote: with an
    option selected and a client-side user, handleVote calls submitVote
    without the token, so it shows "Missing security token", leaves
    [hasVoted] false as it was and the server state as it was; with no
    client-side user it shows the login message without calling the
    server, and with no option selected it does nothing. *)
Theorem vote_button_never_records : forall pid user ui e s,
  handleVote pid user ui e s =
    (Ret (match selectedOption ui, user with
          | None, _ => ui
          | Some _, None => set_ui ui (hasVoted ui) (isSubmitting ui) (Some "You must be logged in to vote")
          | Some _, Some _ => set_ui ui (hasVoted ui) false (Some "Missing security token")
          end), s).
Proof.
  intros pid user ui e s. unfold handleVote.
  destruct (selectedOption ui) as [i|]; [|reflexivity].
  destruct user as [u|]; [|reflexivity].
  unfold try_catch, bind. rewrite submitVote1_no_token. reflexivity.
Qed.

(** X8: the delete form of the [PollActions] copy in csrf.ts never deletes:
    [deletePoll] receives the [FormData] as its id and no token, and
    answers "Missing security token" with the state unchanged, whatever the
    form holds. *)
Theorem form_delete_never_deletes : forall fd e s,
  poll_card_delete_form fd e s = (Ret (Some "Missing security token"), s).
Proof. intros fd e s. apply deletePoll1_no_token. Qed.

(** X9: the delete form of AdminPage, run by an admin against the
    adminDeletePoll of admin-actions.ts that takes a token, changes nothing:
    it passes no token, so the action answers "Missing security token"
    and the answer is dropped. *)
Theorem admin_page_delete_never_deletes : forall pid e s,
  admin_gate e = None -> admin_page_delete_action pid e s = (Ret tt, s).
Proof.
  intros pid e s Hg. unfold admin_page_delete_action, AdminActions.adminDeletePoll, bind.
  rewrite checkAdminAccess_redirect_gate, Hg. reflexivity.
Qed.

Lemma admin_page_delete_never_deletes_witness :
  admin_gate (env_of (Some root_admin)) = None /\
  admin_page_delete_action "p1" (env_of (Some root_admin)) st0 = (Ret tt, st0).
Proof.
  split; [reflexivity|]. apply admin_page_delete_never_deletes. reflexivity.
Defined.

Lemma getUserPolls_ret : forall order e s, exists r,
  PollActions.getUserPolls order e s = (Ret r, s).
Proof.
  intros order e s. unfold PollActions.getUserPolls, getUser, bind, select_polls_ordered, ret. simpl.
  destruct (session_user e); [|eexists; reflexivity].
  destruct (db_error e SelectPoll); eexists; reflexivity.
Qed.

(** The state after a page called generateCsrfToken: the random stream
    moved on, nothing else changed. *)
Definition after_render_token (s : State) : State :=
  mkState (polls s) (votes s) (csrf_cookie s) (rng_pos s + 32) (next_row s).

Lemma generateCsrfToken_in_render_eq : forall e s,
  generateCsrfToken_in_render e s = (Throw cookie_write_error, after_render_token s).
Proof. intros e s. reflexivity. Qed.

(** X10: the polls list page and the create page never render: both call
    generateCsrfToken while rendering, whose cookie write throws, so for
    every caller and every table neither page hands a token to its
    [PollActions] cards or to [PollCreateForm]; the tables and the stored
    cookie are as before. *)
Theorem list_and_create_pages_never_render : forall order e s,
  PollsPage order e s = (Throw cookie_write_error, after_render_token s) /\
  CreatePollPage e s = (Throw cookie_write_error, after_render_token s).
Proof.
  intros order e s. destruct (getUserPolls_ret order e s) as [[ps err] Hr].
  split.
  - unfold PollsPage, bind at 1. rewrite Hr. reflexivity.
  - reflexivity.
Qed.

Lemma getPollById_ret : forall id e s, exists r, PollActions.getPollById id e s = (Ret r, s).
Proof.
  intros id e s. unfold PollActions.getPollById, select_poll_single, bind, ret.
  destruct (db_error e SelectPoll); [eexists; reflexivity|].
  destruct (filter _ (polls s)) as [|p [|p' l]]; eexists; reflexivity.
Qed.

(** X11: the poll page never renders: it calls generateCsrfToken before it
    checks that the poll exists, and the cookie write throws, so every
    visit, to an existing poll or a missing one, ends in that error rather
    than in the poll or [notFound()]; the tables and the stored cookie are
    as before. *)
Theorem poll_page_never_renders : forall id e s,
  PollDetailPage id e s = (Throw cookie_write_error, after_render_token s).
Proof.
  intros id e s. destruct (getPollById_ret id e s) as [[poll err] Hr].
  unfold PollDetailPage, bind at 1. rewrite Hr. reflexivity.
Qed.

(** What a call of deletePoll may do to the tables; [done] is how the
    call ends after a deletion. *)
Definition delete_frame (pid : string) (e : Env) (s : State) (done : Outcome Res)
    (r : Outcome Res * State) : Prop :=
  votes (snd r) = votes s /\
  (polls (snd r) = polls s \/
   exists u p, session_user e = Some u /\ auth_error e = None /\
     filter (fun q => String.eqb (pl_id q) pid) (polls s) = [p] /\ pl_user_id p = uid u /\
     polls (snd r) = filter (fun q => negb (String.eqb (pl_id q) pid)) (polls s) /\
     fst r = done).

(** The part of deletePoll after the CSRF block, in both sections. *)
Ltac delete_body Hp Hv :=
  unfold getUser, select_poll_single, delete_polls, revalidatePath, revalidatePath_navigation,
    throw, bind, ret; simpl;
  let fr := (split; [exact Hv | left; exact Hp]) in
  destruct (auth_error _) eqn:Ea; [fr|];
  destruct (session_user _) as [u|] eqn:Eu; [|fr];
  destruct (db_error _ SelectPoll); [fr|];
  try rewrite Hp;
  destruct (filter _ (polls _)) as [|p [|p' l]] eqn:Ef; try fr; simpl;
  destruct (String.eqb (pl_user_id p) (uid u)) eqn:Eo; simpl; [|fr];
  destruct (db_error _ DeletePolls); simpl; [fr|];
  split; [exact Hv|]; right; exists u, p; apply String.eqb_eq in Eo;
  try rewrite Hp; repeat split; auto.

Lemma deletePoll1_frame : forall pid tok e s,
  delete_frame pid e s (Ret None) (PollActions.deletePoll pid tok e s).
Proof.
  intros pid tok e s. unfold PollActions.deletePoll, then_, bind at 1.
  destruct (csrf_block_arg_tables "Invalid security token. Please refresh the page and try again." tok e s)
    as [Hp [Hv Hst]].
  destruct (csrf_block_arg _ tok e s) as [o s1]. simpl in Hp, Hv, Hst.
  destruct Hst as [->|[m ->]]; [|unfold ret; split; [exact Hv | left; exact Hp]].
  delete_body Hp Hv.
Qed.

Lemma deletePoll2_frame : forall pid e s,
  delete_frame pid e s (Throw "TypeError: revalidatePath is not a function")
    (PollActions2.deletePoll pid e s).
Proof.
  intros pid e s. unfold PollActions2.deletePoll.
  assert (Hp : polls s = polls s) by reflexivity.
  assert (Hv : votes s = votes s) by reflexivity.
  delete_body Hp Hv.
Qed.

Lemma deletePoll2_never_ok : forall pid e s, fst (PollActions2.deletePoll pid e s) <> Ret None.
Proof.
  intros pid e s.
  unfold PollActions2.deletePoll, getUser, select_poll_single, delete_polls,
    revalidatePath_navigation, throw, bind, ret; simpl.
  destruct (auth_error e); [simpl; discriminate|].
  destruct (session_user e) as [u|]; [|simpl; discriminate].
  destruct (db_error e SelectPoll); [simpl; discriminate|].
  destruct (filter _ (polls s)) as [|p [|p' l]]; simpl; try discriminate.
  destruct (String.eqb (pl_user_id p) (uid u)); simpl; [|discriminate].
  destruct (db_error e DeletePolls); simpl; discriminate.
Qed.

(** What a call of updatePoll with form [fd] may do to the tables: [q] is
    the form's question and [opts] its non-empty options. *)
Definition update_frame (pid : string) (fd : FormData) (e : Env) (s : State)
    (r : Outcome Res * State) : Prop :=
  votes (snd r) = votes s /\
  (polls (snd r) = polls s \/
   exists u p q opts, session_user e = Some u /\ auth_error e = None /\
     filter (fun x => String.eqb (pl_id x) pid) (polls s) = [p] /\ pl_user_id p = uid u /\
     fd_get fd "question" = Some (FStr q) /\
     filter truthy (fd_getAll fd "options") = map FStr opts /\
     polls (snd r) = map (fun x => if String.eqb (pl_id x) pid && String.eqb (pl_user_id x) (uid u)
                                   then mkPoll (pl_id x) (pl_user_id x) (sanitize q) (map sanitize opts)
                                   else x) (polls s) /\
     fst r = Ret None).

Lemma sanitize_options_shape : forall opts e s, exists o,
  sanitize_options opts e s = (o, s) /\
  (forall ss, o = Ret ss -> exists xs, opts = map FStr xs /\ ss = map sanitize xs).
Proof.
  induction opts as [|v rest IH]; intros e s.
  - exists (Ret []). split; [reflexivity|]. intros ss H. injection H as <-. exists [].
    split; reflexivity.
  - simpl. unfold bind. destruct v as [x|]; simpl.
    + destruct (IH e s) as [o [Ho Hs]]. rewrite Ho.
      destruct o as [ss|m|m].
      * exists (Ret (sanitize x :: ss)). split; [reflexivity|].
        intros ss' H. injection H as <-. destruct (Hs ss eq_refl) as [xs [-> ->]].
        exists (x :: xs). split; reflexivity.
      * eexists; split; [reflexivity|]. discriminate.
      * eexists; split; [reflexivity|]. discriminate.
    + eexists; split; [reflexivity|]. discriminate.
Qed.

Lemma as_js_string_shape : forall q e s, exists o,
  as_js_string q e s = (o, s) /\ (forall x, o = Ret x -> q = Some (FStr x)).
Proof.
  intros [[x|]|] e s; simpl; eexists; split; try reflexivity; try discriminate.
  intros y H. injection H as <-. reflexivity.
Qed.

(** The part of updatePoll after the checks, in both sections. *)
Ltac update_body Hp Hv :=
  unfold getUser, select_poll_single, update_polls, revalidatePath, try_catch, bind, ret; simpl;
  let fr := (split; [exact Hv | left; exact Hp]) in
  destruct (auth_error _) eqn:Ea; [fr|];
  destruct (session_user _) as [u|] eqn:Eu; [|fr];
  destruct (db_error _ SelectPoll); [fr|];
  try rewrite Hp;
  destruct (filter _ (polls _)) as [|p [|p' l]] eqn:Ef; try fr; simpl;
  destruct (String.eqb (pl_user_id p) (uid u)) eqn:Eo; simpl; [|fr];
  match goal with |- context [as_js_string ?q ?e ?s] =>
    destruct (as_js_string_shape q e s) as [oq [Hq Hqs]]; rewrite Hq;
    destruct oq as [q0|m|m]; [specialize (Hqs q0 eq_refl)|fr|fr]
  end;
  match goal with |- context [sanitize_options ?o ?e ?s] =>
    destruct (sanitize_options_shape o e s) as [os [Hos Hsh]]; rewrite Hos;
    destruct os as [ss|m|m]; [|fr|fr];
    destruct (Hsh ss eq_refl) as [xs [Hxs ->]]
  end;
  destruct (db_error _ UpdatePolls); simpl; [fr|];
  split; [exact Hv|]; right; apply String.eqb_eq in Eo; do 4 eexists;
  try rewrite Hp; repeat split; eauto.

Lemma updatePoll1_frame : forall pid fd e s,
  update_frame pid fd e s (PollActions.updatePoll pid fd e s).
Proof.
  intros pid fd e s. unfold PollActions.updatePoll. unfold then_ at 1. unfold bind at 1.
  destruct (csrf_block_form_tables fd e s) as [Hp [Hv Hst]].
  destruct (csrf_block_form fd e s) as [o s1]. simpl in Hp, Hv, Hst.
  destruct Hst as [->|[m ->]]; [|unfold ret; split; [exact Hv | left; exact Hp]].
  unfold then_, bind at 1.
  destruct (poll_input_checks_pure (fd_get fd "question") (filter truthy (fd_getAll fd "options")))
    as [o [Ho Hk]].
  rewrite Ho.
  destruct Hk as [[->|[m ->]]|[x ->]]; [| unfold ret; split; [exact Hv | left; exact Hp] |
     split; [exact Hv | left; exact Hp]].
  update_body Hp Hv.
Qed.

Lemma updatePoll2_frame : forall pid fd e s,
  update_frame pid fd e s (PollActions2.updatePoll pid fd e s).
Proof.
  intros pid fd e s. unfold PollActions2.updatePoll. unfold then_, bind at 1.
  assert (Hp : polls s = polls s) by reflexivity.
  assert (Hv : votes s = votes s) by reflexivity.
  destruct (poll_input_checks_pure (fd_get fd "question") (filter truthy (fd_getAll fd "options")))
    as [o [Ho Hk]].
  rewrite Ho.
  destruct Hk as [[->|[m ->]]|[x ->]]; [| unfold ret; split; [exact Hv | left; exact Hp] |
     split; [exact Hv | left; exact Hp]].
  update_body Hp Hv.
Qed.



(** X12: deletePoll removes nothing but the caller's own poll.  The vote rows
    are never touched, and the poll rows change only when the logged-in
    caller owns the single row with that id: then exactly the rows with that
    id are removed.  The first section then answers [{ error: null }]; the
    second section, whose [revalidatePath] is not a function, throws after
    the row is gone, and so never answers [{ error: null }]. *)
Theorem deletePoll_removes_only_own_poll :
  (forall pid tok e s, delete_frame pid e s (Ret None) (PollActions.deletePoll pid tok e s)) /\
  (forall pid e s,
     delete_frame pid e s (Throw "TypeError: revalidatePath is not a function")
       (PollActions2.deletePoll pid e s)) /\
  (forall pid e s, fst (PollActions2.deletePoll pid e s) <> Ret None).
Proof.
  split; [exact deletePoll1_frame|].
  split; [exact deletePoll2_frame | exact deletePoll2_never_ok].
Qed.

(** X13: updatePoll changes nothing but the caller's own poll.  The vote rows
    are never touched, even when the new options are fewer than before, and
    the poll rows change only when the logged-in caller owns the single row
    with that id: then the rows with that id and that owner get the
    sanitized question and the sanitized options, keeping their id and
    owner, and the action answers [{ error: null }]; this holds for both
    sections of the file. *)
Theorem updatePoll_changes_only_own_poll :
  (forall pid fd e s, update_frame pid fd e s (PollActions.updatePoll pid fd e s)) /\
  (forall pid fd e s, update_frame pid fd e s (PollActions2.updatePoll pid fd e s)).
Proof. split; [exact updatePoll1_frame | exact updatePoll2_frame]. Qed.


(** X15: getUserPolls lists exactly the caller's polls and changes nothing:
    with a logged-in user and a readable table, the list holds the poll rows
    whose owner is the caller, in the order the store gives them; without a
    user it answers [[]] and "Not authenticated"; a read error gives [[]]
    and the error message. *)
Theorem getUserPolls_own_polls : forall order e s,
  (forall l p, In p (order l) <-> In p l) ->
  snd (PollActions.getUserPolls order e s) = s /\
  match session_user e with
  | None => fst (PollActions.getUserPolls order e s) = Ret ([], Some "Not authenticated")
  | Some u =>
      match db_error e SelectPoll with
      | Some m => fst (PollActions.getUserPolls order e s) = Ret ([], Some m)
      | None => exists ps, fst (PollActions.getUserPolls order e s) = Ret (ps, None) /\
                  forall p, In p ps <-> In p (polls s) /\ pl_user_id p = uid u
      end
  end.
Proof.
  intros order e s Hord.
  unfold PollActions.getUserPolls, getUser, bind, select_polls_ordered, ret. simpl.
  destruct (session_user e) as [u|]; [|split; reflexivity].
  destruct (db_error e SelectPoll); simpl; [split; reflexivity|].
  split; [reflexivity|]. eexists; split; [reflexivity|].
  intros p. rewrite Hord, filter_In, String.eqb_eq. tauto.
Qed.

Lemma getUserPolls_own_polls_witness :
  (forall l (p : Poll), In p (rev l) <-> In p l) /\
  snd (PollActions.getUserPolls (@rev Poll) (env_of (Some alice)) st0) = st0.
Proof.
  assert (H : forall l (p : Poll), In p (rev l) <-> In p l).
  { intros l p. split; [apply in_rev | apply in_rev]. }
  split; [exact H|].
  exact (proj1 (getUserPolls_own_polls (@rev Poll) (env_of (Some alice)) st0 H)).
Defined.

Lemma filter_true_id : forall {A} (l : list A), filter (fun _ => true) l = l.
Proof. induction l; simpl; congruence. Qed.

(** X16: both getAdminPolls list every poll, and only to an admin, without
    changing anything.  The admin-actions.ts version redirects a caller who
    is not logged in (or whose session lookup failed) to "/login" and any
    other non-admin to "/polls"; the helpers.ts version throws
    "User not authenticated." without a user, ignores the session error,
    and redirects a non-admin to "/polls". *)
Theorem getAdminPolls_admin_only : forall order e s,
  AdminActions.getAdminPolls order e s =
    match admin_gate e with
    | Some path => (Redirect path, s)
    | None => match db_error e SelectPoll with
              | Some m => (Ret ([], Some m), s)
              | None => (Ret (order (polls s), None), s)
              end
    end /\
  Helpers.getAdminPolls order e s =
    match session_user e with
    | None => (Throw "User not authenticated.", s)
    | Some u =>
        if isAdmin u
        then match db_error e SelectPoll with
             | Some m => (Ret ([], Some m), s)
             | None => (Ret (order (polls s), None), s)
             end
        else (Redirect "/polls", s)
    end.
Proof.
  intros order e s. split.
  - unfold AdminActions.getAdminPolls, checkAdminAccess_redirect, admin_gate, getUser,
      select_polls_ordered, bind, ret, redirect. simpl.
    destruct (auth_error e); [reflexivity|].
    destruct (session_user e) as [u|]; [|reflexivity].
    destruct (isAdmin u); simpl; [|reflexivity].
    destruct (db_error e SelectPoll); [reflexivity|]. rewrite filter_true_id. reflexivity.
  - unfold Helpers.getAdminPolls, Helpers.checkAdminAccess, Helpers.getAuthenticatedUser, getUser,
      select_polls_ordered, bind, ret, redirect, throw. simpl.
    destruct (session_user e) as [u|]; [|reflexivity].
    destruct (isAdmin u); simpl; [|reflexivity].
    destruct (db_error e SelectPoll); [reflexivity|]. rewrite filter_true_id. reflexivity.
Qed.

(** X17: validatePollOwnership returns normally exactly when a user is logged
    in and owns the single poll row with that id; otherwise it throws
    "User not authenticated.", "Poll not found." or "User is not the owner
    of the poll.".  It never changes the state. *)
Theorem validatePollOwnership_owner_only : forall pid e s,
  snd (Helpers.validatePollOwnership pid e s) = s /\
  (fst (Helpers.validatePollOwnership pid e s) = Ret tt <->
   exists u p, session_user e = Some u /\ db_error e SelectPoll = None /\
     filter (fun q => String.eqb (pl_id q) pid) (polls s) = [p] /\ pl_user_id p = uid u) /\
  (fst (Helpers.validatePollOwnership pid e s) = Ret tt \/
   fst (Helpers.validatePollOwnership pid e s) = Throw "User not authenticated." \/
   fst (Helpers.validatePollOwnership pid e s) = Throw "Poll not found." \/
   fst (Helpers.validatePollOwnership pid e s) = Throw "User is not the owner of the poll.").
Proof.
  intros pid e s.
  unfold Helpers.validatePollOwnership, Helpers.getAuthenticatedUser, getUser,
    select_poll_single, bind, ret, throw. simpl.
  destruct (session_user e) as [u|] eqn:Eu; simpl.
  2:{ split; [reflexivity|]. split; [|tauto]. split; [discriminate|].
      intros (u & p & H & _). discriminate. }
  destruct (db_error e SelectPoll) eqn:Ed; simpl.
  { split; [reflexivity|]. split; [|tauto]. split; [discriminate|].
    intros (u' & p & _ & H & _). discriminate. }
  destruct (filter _ (polls s)) as [|p [|p' l]] eqn:Ef; simpl.
  1,3: split; [reflexivity|]; split; [|tauto]; split; [discriminate|];
       intros (u' & p0 & _ & _ & H & _); discriminate.
  destruct (String.eqb (pl_user_id p) (uid u)) eqn:Eo; simpl.
  - split; [reflexivity|]. split; [|tauto]. split; [|reflexivity]. intros _.
    exists u, p. apply String.eqb_eq in Eo. auto.
  - split; [reflexivity|]. split; [|tauto]. split; [discriminate|].
    intros (u' & p0 & Hu & _ & Hf & Ho). injection Hu as <-. injection Hf as <-.
    apply String.eqb_neq in Eo. contradiction.
Qed.

(** X18: the edit page never renders its form: a missing poll (or a failed
    read) ends in [notFound()], a caller who is not logged in or not the
    owner is redirected to "/polls/<id>", both with the state unchanged, and
    for the owner generateCsrfToken's cookie write throws, leaving the tables
    and the stored cookie as before. *)
Theorem EditPollPage_outcomes : forall id e s,
  EditPollPage id e s =
    match db_error e SelectPoll, filter (fun q => String.eqb (pl_id q) id) (polls s) with
    | None, [p] =>
        match session_user e with
        | Some u =>
            if String.eqb (pl_user_id p) (uid u)
            then (Throw cookie_write_error, after_render_token s)
            else (Redirect ("/polls/" ++ id), s)
        | None => (Redirect ("/polls/" ++ id), s)
        end
    | _, _ => (Throw "NEXT_NOT_FOUND", s)
    end.
Proof.
  intros id e s.
  unfold EditPollPage, PollActions.getPollById, getUser, select_poll_single, notFound,
    bind, ret, redirect, throw. simpl.
  destruct (db_error e SelectPoll); [reflexivity|].
  destruct (filter _ (polls s)) as [|p [|p' l]]; simpl; try reflexivity.
  destruct (session_user e) as [u|]; [|reflexivity].
  destruct (String.eqb (pl_user_id p) (uid u)); reflexivity.
Qed.

Definition sum_vals (o : JsObj) : nat := fold_right (fun kv acc => snd kv + acc) 0 o.

Definition get0 (o : JsObj) (k : Z) : nat := match js_get o k with Some c => c | None => 0 end.

Lemma sum_vals_app : forall o1 o2, sum_vals (app o1 o2) = sum_vals o1 + sum_vals o2.
Proof. induction o1 as [|kv o1 IH]; intros o2; simpl; [reflexivity|]. rewrite IH. lia. Qed.

Lemma sum_vals_perm : forall o1 o2, Permutation o1 o2 -> sum_vals o1 = sum_vals o2.
Proof. intros o1 o2 H. induction H; simpl; lia. Qed.

Lemma fold_sum : forall l a,
  fold_left (fun sum kv => sum + snd kv) l a = a + sum_vals l.
Proof. induction l as [|kv l IH]; intros a; simpl; [lia|]. rewrite IH. lia. Qed.

Lemma js_set_sum : forall o k v, sum_vals (js_set o k v) + get0 o k = sum_vals o + v.
Proof.
  unfold get0. induction o as [|[k' v'] o IH]; intros k v; simpl; [lia|].
  destruct (Z.eqb k k'); simpl; [lia|]. specialize (IH k v). lia.
Qed.

Lemma js_get_set_other : forall o k k' v, k' <> k -> js_get (js_set o k v) k' = js_get o k'.
Proof.
  induction o as [|[k1 v1] o IH]; intros k k' v Hne; simpl.
  - apply Z.eqb_neq in Hne. rewrite Hne. reflexivity.
  - destruct (Z.eqb k k1) eqn:E; simpl.
    + apply Z.eqb_eq in E. subst k1. apply Z.eqb_neq in Hne. rewrite Hne. reflexivity.
    + destruct (Z.eqb k' k1); [reflexivity|]. apply IH. exact Hne.
Qed.

Lemma js_set_keys : forall o k v,
  map fst (js_set o k v) = if existsb (Z.eqb k) (map fst o) then map fst o else app (map fst o) [k].
Proof.
  induction o as [|[k1 v1] o IH]; intros k v; simpl; [reflexivity|].
  destruct (Z.eqb k k1) eqn:E; simpl; [reflexivity|].
  rewrite IH. destruct (existsb (Z.eqb k) (map fst o)); reflexivity.
Qed.

Lemma js_set_nodup : forall o k v, NoDup (map fst o) -> NoDup (map fst (js_set o k v)).
Proof.
  intros o k v H. rewrite js_set_keys.
  destruct (existsb (Z.eqb k) (map fst o)) eqn:E; [exact H|].
  apply NoDup_app; [exact H | constructor; [intros []|constructor] |].
  intros x Hx [<-|[]]. assert (existsb (Z.eqb k) (map fst o) = true).
  { apply existsb_exists. exists k. split; [exact Hx | apply Z.eqb_refl]. }
  congruence.
Qed.

Lemma count_rows_gen : forall rows acc,
  sum_vals (fold_left (fun counts idx =>
               js_set counts idx (match js_get counts idx with Some c => c | None => 0 end + 1))
            rows acc) = sum_vals acc + List.length rows /\
  (NoDup (map fst acc) ->
   NoDup (map fst (fold_left (fun counts idx =>
               js_set counts idx (match js_get counts idx with Some c => c | None => 0 end + 1))
            rows acc))).
Proof.
  induction rows as [|r rows IH]; intros acc; simpl; [split; [lia | auto]|].
  destruct (IH (js_set acc r (match js_get acc r with Some c => c | None => 0 end + 1))) as [H1 H2].
  split.
  - rewrite H1. pose proof (js_set_sum acc r (get0 acc r + 1)) as Hs. unfold get0 in *. lia.
  - intros Hn. apply H2. apply js_set_nodup. exact Hn.
Qed.

Lemma insert_by_key_perm : forall kv o, Permutation (insert_by_key kv o) (kv :: o).
Proof.
  intros kv. induction o as [|kv' o IH]; simpl; [reflexivity|].
  destruct (fst kv <? fst kv')%Z; [reflexivity|].
  rewrite IH. apply perm_swap.
Qed.

Lemma sort_perm : forall o, Permutation (fold_right insert_by_key [] o) o.
Proof.
  induction o as [|kv o IH]; simpl; [reflexivity|].
  rewrite insert_by_key_perm. apply perm_skip. exact IH.
Qed.

Lemma filter_split_perm : forall {A} (f : A -> bool) l,
  Permutation (app (filter f l) (filter (fun x => negb (f x)) l)) l.
Proof.
  intros A f. induction l as [|x l IH]; simpl; [reflexivity|].
  destruct (f x); simpl.
  - apply perm_skip. exact IH.
  - rewrite <- Permutation_middle. apply perm_skip. exact IH.
Qed.

Lemma object_entries_perm : forall o, Permutation (object_entries o) o.
Proof.
  intros o. unfold object_entries.
  rewrite (Permutation_app_tail _ (sort_perm _)).
  apply (filter_split_perm (fun kv => is_array_index (fst kv))).
Qed.

Definition zero_or_absent (o : JsObj) (k : Z) : Prop := js_get o k = None \/ js_get o k = Some 0.

Lemma set_all_sum : forall ws o,
  NoDup (map fst ws) -> (forall k, In k (map fst ws) -> zero_or_absent o k) ->
  sum_vals (fold_left (fun o kv => js_set o (fst kv) (snd kv)) ws o) = sum_vals o + sum_vals ws.
Proof.
  induction ws as [|[k v] ws IH]; intros o Hn Hz; simpl; [lia|].
  inversion Hn as [|? ? Hk Hn']; subst.
  rewrite IH; [| exact Hn' |].
  - pose proof (js_set_sum o k v) as Hs. unfold get0 in Hs.
    destruct (Hz k (or_introl eq_refl)) as [E|E]; rewrite E in Hs; lia.
  - intros k' Hk'. unfold zero_or_absent.
    rewrite js_get_set_other; [apply Hz; right; exact Hk'|].
    intros ->. contradiction.
Qed.

Lemma js_get_zero : forall o k, Forall (fun kv => snd kv = 0) o -> zero_or_absent o k.
Proof.
  unfold zero_or_absent. induction o as [|[k1 v1] o IH]; intros k H; simpl; [auto|].
  inversion H; subst. simpl in *. subst v1.
  destruct (Z.eqb k k1); [auto | apply IH; assumption].
Qed.

Lemma js_set_zero : forall o k, Forall (fun kv => snd kv = 0) o ->
  Forall (fun kv => snd kv = 0) (js_set o k 0).
Proof.
  induction o as [|[k1 v1] o IH]; intros k H; simpl; [auto|].
  inversion H; subst. destruct (Z.eqb k k1); constructor; simpl; auto.
Qed.

Lemma zeros_init : forall is o, Forall (fun kv => snd kv = 0) o ->
  Forall (fun kv => snd kv = 0) (fold_left (fun o i => js_set o (Z.of_nat i) 0) is o).
Proof.
  induction is as [|i is IH]; intros o H; simpl; [exact H|].
  apply IH. apply js_set_zero. exact H.
Qed.

Lemma sum_vals_zero : forall o, Forall (fun kv => snd kv = 0) o -> sum_vals o = 0.
Proof. induction o as [|kv o IH]; intros H; simpl; [reflexivity|]. inversion H; subst. rewrite H2, IH; auto. Qed.

Lemma totalVotes_sum : forall options ws, NoDup (map fst ws) ->
  totalVotes options ws = sum_vals ws.
Proof.
  intros options ws Hn. unfold totalVotes. rewrite fold_sum.
  rewrite (sum_vals_perm _ _ (object_entries_perm _)).
  unfold votesByOption.
  assert (Hz : Forall (fun kv => snd kv = 0)
                 (fold_left (fun o i => js_set o (Z.of_nat i) 0) (seq 0 (List.length options)) []))
    by (apply zeros_init; constructor).
  rewrite set_all_sum; [| exact Hn | intros k _; apply js_get_zero; exact Hz].
  rewrite (sum_vals_zero _ Hz). reflexivity.
Qed.

Lemma totalVotes_count_rows : forall options rows,
  totalVotes options (object_entries (count_rows rows)) = List.length rows.
Proof.
  intros options rows.
  destruct (count_rows_gen rows []) as [Hs Hn].
  rewrite totalVotes_sum.
  - rewrite (sum_vals_perm _ _ (object_entries_perm _)). unfold count_rows. rewrite Hs. reflexivity.
  - apply (Permutation_NoDup (Permutation_map fst (Permutation_sym (object_entries_perm _)))).
    unfold count_rows. apply Hn. constructor.
Qed.

Lemma js_set_get_same : forall o k v, js_get (js_set o k v) k = Some v.
Proof.
  induction o as [|[k1 v1] o IH]; intros k v; simpl; [rewrite Z.eqb_refl; reflexivity|].
  destruct (Z.eqb k k1) eqn:E; simpl; [rewrite E; reflexivity|]. rewrite E. apply IH.
Qed.

Lemma js_get_notin : forall o k, ~ In k (map fst o) -> js_get o k = None.
Proof.
  induction o as [|[k1 v1] o IH]; intros k H; simpl; [reflexivity|].
  destruct (Z.eqb k k1) eqn:E.
  - apply Z.eqb_eq in E. subst. exfalso. apply H. left. reflexivity.
  - apply IH. intros Hk. apply H. right. exact Hk.
Qed.

Lemma set_all_get : forall ws o k, NoDup (map fst ws) ->
  js_get (fold_left (fun o kv => js_set o (fst kv) (snd kv)) ws o) k =
  match js_get ws k with Some v => Some v | None => js_get o k end.
Proof.
  induction ws as [|[k1 v1] ws IH]; intros o k Hn; simpl; [reflexivity|].
  inversion Hn as [|? ? Hk Hn']; subst.
  rewrite (IH _ _ Hn').
  destruct (Z.eqb k k1) eqn:E.
  - apply Z.eqb_eq in E. subst k1. rewrite (js_get_notin _ _ Hk). apply js_set_get_same.
  - rewrite js_get_set_other; [reflexivity|]. intros ->. rewrite Z.eqb_refl in E. discriminate.
Qed.

Lemma perm_get : forall o1 o2 k, Permutation o1 o2 -> NoDup (map fst o1) ->
  js_get o1 k = js_get o2 k.
Proof.
  intros o1 o2 k H. induction H as [|[k1 v1] l l' H IH|[k1 v1] [k2 v2] l|l l' l'' H1 IH1 H2 IH2];
    intros Hn; simpl in *.
  - reflexivity.
  - inversion Hn; subst. rewrite IH; auto.
  - inversion Hn as [|? ? Hk _]; subst.
    destruct (Z.eqb k k2) eqn:E2, (Z.eqb k k1) eqn:E1; try reflexivity.
    apply Z.eqb_eq in E1, E2. subst. exfalso. apply Hk. left. reflexivity.
  - rewrite IH1; [|exact Hn]. apply IH2.
    apply (Permutation_NoDup (Permutation_map fst H1)). exact Hn.
Qed.

Lemma init_get : forall is o k,
  (In k (map Z.of_nat is) \/ js_get o k = Some 0) ->
  js_get (fold_left (fun o i => js_set o (Z.of_nat i) 0) is o) k = Some 0.
Proof.
  induction is as [|i is IH]; intros o k H; simpl in *.
  - destruct H as [[]|H]; exact H.
  - apply IH. destruct H as [[<-|H]|H]; [right; apply js_set_get_same | left; exact H |].
    right. destruct (Z.eq_dec k (Z.of_nat i)) as [->|Hne]; [apply js_set_get_same|].
    rewrite js_get_set_other; assumption.
Qed.

Lemma count_rows_get0 : forall rows acc k,
  get0 (fold_left (fun counts idx =>
               js_set counts idx (match js_get counts idx with Some c => c | None => 0 end + 1))
            rows acc) k = get0 acc k + List.length (filter (fun j => Z.eqb j k) rows).
Proof.
  unfold get0. induction rows as [|r rows IH]; intros acc k; simpl; [lia|].
  rewrite IH. destruct (Z.eqb r k) eqn:E; simpl.
  - apply Z.eqb_eq in E. subst r. rewrite js_set_get_same. lia.
  - rewrite js_get_set_other; [lia|]. intros ->. rewrite Z.eqb_refl in E. discriminate.
Qed.

Lemma count_rows_nodup : forall rows, NoDup (map fst (object_entries (count_rows rows))).
Proof.
  intros rows. destruct (count_rows_gen rows []) as [_ Hn].
  apply (Permutation_NoDup (Permutation_map fst (Permutation_sym (object_entries_perm _)))).
  unfold count_rows. apply Hn. constructor.
Qed.

Lemma votesByOption_get : forall options rows i, i < List.length options ->
  js_get (votesByOption options (object_entries (count_rows rows))) (Z.of_nat i)
    = Some (List.length (filter (fun j => Z.eqb j (Z.of_nat i)) rows)).
Proof.
  intros options rows i Hi. unfold votesByOption.
  rewrite set_all_get; [|apply count_rows_nodup].
  rewrite (perm_get _ _ _ (object_entries_perm _) (count_rows_nodup rows)).
  pose proof (count_rows_get0 rows [] (Z.of_nat i)) as Hc. fold (count_rows rows) in Hc.
  unfold get0 in Hc. simpl in Hc.
  destruct (js_get (count_rows rows) (Z.of_nat i)) as [c|].
  - rewrite Hc. reflexivity.
  - rewrite init_get; [rewrite <- Hc; reflexivity|]. left. apply in_map. apply in_seq. lia.
Qed.

(** What a call of an admin delete action may do to the tables. *)
Definition admin_delete_frame (pid : string) (e : Env) (s : State) (r : Outcome Res * State) : Prop :=
  votes (snd r) = votes s /\
  (polls (snd r) = polls s \/
   exists u, session_user e = Some u /\ isAdmin u = true /\
     polls (snd r) = filter (fun q => negb (String.eqb (pl_id q) pid)) (polls s)).


(** X19: the vote summary of SecurePollPage counts every vote row: for the
    [voteStats] that the poll page builds from the [option_index] of the
    rows, [totalVotes] is the number of rows, rows whose index is not (or no
    longer) an option included, and the entry of [votesByOption] for each
    option index is the number of rows with that index. *)
Theorem vote_summary_counts_rows : forall options rows,
  totalVotes options (object_entries (count_rows rows)) = List.length rows /\
  (forall i, i < List.length options ->
     js_get (votesByOption options (object_entries (count_rows rows))) (Z.of_nat i)
       = Some (List.length (filter (fun j => Z.eqb j (Z.of_nat i)) rows))).
Proof.
  intros options rows. split; [apply totalVotes_count_rows|].
  intros i Hi. apply votesByOption_get. exact Hi.
Qed.


Lemma csrfProtection_tables : forall fd e s,
  polls (snd (csrfProtection fd e s)) = polls s /\
  votes (snd (csrfProtection fd e s)) = votes s.
Proof.
  intros fd e s. unfold csrfProtection.
  destruct (fd_get fd "csrf_token") as [t|]; [|split; reflexivity].
  destruct (negb (truthy t)); [split; reflexivity|].
  unfold bind. destruct (validateCsrfToken_tables t e s) as [Hp [Hv [b Hb]]].
  destruct (validateCsrfToken t e s) as [o s1]. simpl in *. subst o.
  destruct b; simpl; auto.
Qed.

Lemma adminDeletePoll1_frame : forall pid tok e s,
  admin_delete_frame pid e s (AdminActions.adminDeletePoll pid tok e s).
Proof.
  intros pid tok e s.
  unfold AdminActions.adminDeletePoll, checkAdminAccess_redirect, getUser, redirect, ret, bind at 1 2.
  simpl.
  destruct (auth_error e); [simpl; split; auto|].
  destruct (session_user e) as [u|] eqn:Eu; [|simpl; split; auto].
  destruct (isAdmin u) eqn:Ea; simpl; [|split; auto].
  unfold then_, bind at 1.
  destruct (csrf_block_arg_tables "Invalid security token. Please refresh the page and try again." tok e s)
    as [Hp [Hv Hst]].
  destruct (csrf_block_arg _ tok e s) as [o s1]. simpl in Hp, Hv, Hst.
  destruct Hst as [->|[m ->]]; [|unfold ret; split; [exact Hv | left; exact Hp]].
  unfold delete_polls, bind, ret. simpl.
  destruct (db_error e DeletePolls); simpl; [split; [exact Hv | left; exact Hp]|].
  split; [exact Hv|]. right. exists u. rewrite Hp. auto.
Qed.

Lemma adminDeletePoll2_frame : forall pid e s,
  admin_delete_frame pid e s (AdminActions2.adminDeletePoll pid e s).
Proof.
  intros pid e s.
  unfold AdminActions2.adminDeletePoll, checkAdminAccess_redirect, getUser, redirect,
    delete_polls, ret, bind. simpl.
  destruct (auth_error e); [simpl; split; auto|].
  destruct (session_user e) as [u|] eqn:Eu; [|simpl; split; auto].
  destruct (isAdmin u) eqn:Ea; simpl; [|split; auto].
  destruct (db_error e DeletePolls); simpl; [split; auto|].
  split; [reflexivity|]. right. exists u. auto.
Qed.

Lemma adminDeletePoll_helpers_frame : forall fd e s,
  admin_delete_frame (filter_string (fd_get fd "poll_id")) e s (Helpers.adminDeletePoll fd e s).
Proof.
  intros fd e s.
  unfold Helpers.adminDeletePoll, Helpers.checkAdminAccess, Helpers.getAuthenticatedUser,
    getUser, redirect, throw, ret, bind at 1 2 3. simpl.
  destruct (session_user e) as [u|] eqn:Eu; [|simpl; split; auto].
  destruct (isAdmin u) eqn:Ea; simpl; [|split; auto].
  unfold then_, try_catch, bind at 1 2.
  destruct (csrfProtection_tables fd e s) as [Hp Hv].
  destruct (csrfProtection fd e s) as [[b|m|m] s1]; simpl in Hp, Hv |- *;
    unfold stop, continue, ret; simpl; try (split; [exact Hv | left; exact Hp]).
  destruct (negb (truthy_opt (fd_get fd "poll_id"))); [split; [exact Hv | left; exact Hp]|].
  unfold delete_polls, bind. simpl.
  destruct (db_error e DeletePolls); simpl; [split; [exact Hv | left; exact Hp]|].
  split; [exact Hv|]. right. exists u. rewrite Hp. auto.
Qed.

(** What a call of createPoll with form [fd] may do to the tables: [q] is
    the form's question, [opts] its non-empty options, and [done] how the
    call ends after an insertion. *)
Definition create_frame (fd : FormData) (e : Env) (s : State) (done : Outcome Res)
    (r : Outcome Res * State) : Prop :=
  votes (snd r) = votes s /\
  (polls (snd r) = polls s \/
   exists u rid q opts, session_user e = Some u /\ auth_error e = None /\
     fd_get fd "question" = Some (FStr q) /\
     filter truthy (fd_getAll fd "options") = map FStr opts /\
     polls (snd r) = app (polls s) [mkPoll rid (uid u) (sanitize q) (map sanitize opts)] /\
     fst r = done).

(** The part of createPoll after the checks, in both sections. *)
Ltac create_body Hp Hv :=
  unfold getUser, insert_poll, revalidatePath, revalidatePath_navigation, throw, bind, ret; simpl;
  let fr := (split; [exact Hv | left; exact Hp]) in
  destruct (auth_error _) eqn:Ea; [fr|];
  destruct (session_user _) as [u|] eqn:Eu; [|fr];
  match goal with |- context [as_js_string ?q ?e ?s] =>
    destruct (as_js_string_shape q e s) as [oq [Hq Hqs]]; rewrite Hq;
    destruct oq as [q0|m|m]; [specialize (Hqs q0 eq_refl)|fr|fr]
  end;
  match goal with |- context [sanitize_options ?o ?e ?s] =>
    destruct (sanitize_options_shape o e s) as [os [Hos Hsh]]; rewrite Hos;
    destruct os as [ss|m|m]; [|fr|fr];
    destruct (Hsh ss eq_refl) as [xs [Hxs ->]]
  end;
  destruct (db_error _ InsertPoll); simpl; [fr|];
  split; [exact Hv|]; right; do 4 eexists;
  try rewrite Hp; repeat split; eauto.

Lemma createPoll1_frame : forall fd e s,
  create_frame fd e s (Ret None) (PollActions.createPoll fd e s).
Proof.
  intros fd e s. unfold PollActions.createPoll. unfold then_ at 1. unfold bind at 1.
  destruct (csrf_block_form_tables fd e s) as [Hp [Hv Hst]].
  destruct (csrf_block_form fd e s) as [o s1]. simpl in Hp, Hv, Hst.
  destruct Hst as [->|[m ->]]; [|unfold ret; split; [exact Hv | left; exact Hp]].
  unfold then_, bind at 1.
  destruct (poll_input_checks_pure (fd_get fd "question") (filter truthy (fd_getAll fd "options")))
    as [o [Ho Hk]].
  rewrite Ho.
  destruct Hk as [[->|[m ->]]|[x ->]]; [| unfold ret; split; [exact Hv | left; exact Hp] |
     split; [exact Hv | left; exact Hp]].
  create_body Hp Hv.
Qed.

Lemma createPoll2_frame : forall fd e s,
  create_frame fd e s (Throw "TypeError: revalidatePath is not a function") (PollActions2.createPoll fd e s).
Proof.
  intros fd e s. unfold PollActions2.createPoll. unfold then_ at 1. unfold bind at 1.
  destruct (csrf_block_form_tables fd e s) as [Hp [Hv Hst]].
  destruct (csrf_block_form fd e s) as [o s1]. simpl in Hp, Hv, Hst.
  destruct Hst as [->|[m ->]]; [|unfold ret; split; [exact Hv | left; exact Hp]].
  unfold then_, bind at 1.
  destruct (poll_input_checks_pure (fd_get fd "question") (filter truthy (fd_getAll fd "options")))
    as [o [Ho Hk]].
  rewrite Ho.
  destruct Hk as [[->|[m ->]]|[x ->]]; [| unfold ret; split; [exact Hv | left; exact Hp] |
     split; [exact Hv | left; exact Hp]].
  create_body Hp Hv.
Qed.

Lemma createPoll2_never_ok : forall fd e s, fst (PollActions2.createPoll fd e s) <> Ret None.
Proof.
  intros fd e s. unfold PollActions2.createPoll. unfold then_ at 1. unfold bind at 1.
  destruct (csrf_block_form_tables fd e s) as [_ [_ Hst]].
  destruct (csrf_block_form fd e s) as [o s1]. simpl in Hst.
  destruct Hst as [->|[m ->]]; [|unfold ret; simpl; discriminate].
  unfold then_, bind at 1.
  destruct (poll_input_checks_pure (fd_get fd "question") (filter truthy (fd_getAll fd "options")))
    as [o [Ho Hk]].
  rewrite Ho.
  destruct Hk as [[->|[m ->]]|[x ->]]; [| unfold ret; simpl; discriminate | simpl; discriminate].
  unfold getUser, insert_poll, revalidatePath_navigation, throw, bind, ret; simpl.
  destruct (auth_error _); [simpl; discriminate|].
  destruct (session_user _) as [u|]; [|simpl; discriminate].
  match goal with |- context [as_js_string ?q ?e ?s] =>
    destruct (as_js_string_shape q e s) as [oq [Hq _]]; rewrite Hq; destruct oq as [q0|m|m];
    [|simpl; discriminate|simpl; discriminate]
  end.
  match goal with |- context [sanitize_options ?o ?e ?s] =>
    destruct (sanitize_options_shape o e s) as [os [Hos _]]; rewrite Hos;
    destruct os as [ss|m|m]; [|simpl; discriminate|simpl; discriminate]
  end.
  destruct (db_error _ InsertPoll); simpl; discriminate.
Qed.



(** X21: only an admin ever removes polls through the admin delete actions.
    In all three versions (admin-actions.ts with and without the token,
    helpers.ts with the form) the vote rows are never touched, and the poll
    rows either stay as they were or lose exactly the rows with the given
    id, and the latter only when the logged-in caller is an admin. *)
Theorem adminDeletePoll_only_admin_deletes :
  (forall pid tok e s, admin_delete_frame pid e s (AdminActions.adminDeletePoll pid tok e s)) /\
  (forall pid e s, admin_delete_frame pid e s (AdminActions2.adminDeletePoll pid e s)) /\
  (forall fd e s,
     admin_delete_frame (filter_string (fd_get fd "poll_id")) e s (Helpers.adminDeletePoll fd e s)).
Proof.
  split; [exact adminDeletePoll1_frame|].
  split; [exact adminDeletePoll2_frame | exact adminDeletePoll_helpers_frame].
Qed.

(** X22: createPoll adds at most one poll, owned by the caller, with the
    sanitized question and options, and never touches the votes.  The first
    section then answers [{ error: null }]; the second section stores the
    row and then throws, because its [revalidatePath] is not a function, so
    it never answers [{ error: null }]. *)
Theorem createPoll_adds_one_sanitized_poll :
  (forall fd e s, create_frame fd e s (Ret None) (PollActions.createPoll fd e s)) /\
  (forall fd e s,
     create_frame fd e s (Throw "TypeError: revalidatePath is not a function")
       (PollActions2.createPoll fd e s)) /\
  (forall fd e s, fst (PollActions2.createPoll fd e s) <> Ret None).
Proof.
  split; [exact createPoll1_frame|].
  split; [exact createPoll2_frame | exact createPoll2_never_ok].
Qed.
